(** * Snowflake notebook helpers: the SQL magics extension and the notebook converter

    A shallow embedding of [snowflake_sql_magics.py] and
    [convert_snowflake_notebook.py].

    Python [str] values are modelled as [string]; a character is one of the
    code points 0..255.  Python dictionaries that are written back as JSON
    are association lists (key order is observable in the written file); the
    interactive namespace is a [gmap]. *)

From Stdlib Require Import Ascii String ZArith Bool List.
From stdpp Require Import base option list strings gmap pretty.

Open Scope string_scope.
Open Scope list_scope.

(** ** Python string primitives *)

Module PyStr.

(** [str.isspace] on the code points 0..255: TAB, LF, VT, FF, CR,
    FS, GS, RS, US, SPACE, NEL (0x85) and NBSP (0xA0). *)
Definition isspace (c : ascii) : bool :=
  match c with
  | "009" | "010" | "011" | "012" | "013"
  | "028" | "029" | "030" | "031" | " "
  | "133" | "160" => true
  | _ => false
  end%char.

Definition is_empty (s : string) : bool :=
  match s with EmptyString => true | String _ _ => false end.

(** Truthiness of a [str]: the empty string is falsy. *)
Definition truthy (s : string) : bool := negb (is_empty s).

Fixpoint lstrip (s : string) : string :=
  match s with
  | EmptyString => EmptyString
  | String c s' => if isspace c then lstrip s' else s
  end.

Fixpoint rstrip (s : string) : string :=
  match s with
  | EmptyString => EmptyString
  | String c s' =>
      let r := rstrip s' in
      if isspace c && is_empty r then EmptyString else String c r
  end.

(** [s.strip()] *)
Definition strip (s : string) : string := rstrip (lstrip s).

(** [s.startswith(p)] *)
Fixpoint startswith (p s : string) : bool :=
  match p, s with
  | EmptyString, _ => true
  | String a p', String b s' => Ascii.eqb a b && startswith p' s'
  | String _ _, EmptyString => false
  end.

(** The text after the prefix [p], when [s] starts with [p]. *)
Fixpoint drop_prefix (p s : string) : option string :=
  match p, s with
  | EmptyString, _ => Some s
  | String a p', String b s' =>
      if Ascii.eqb a b then drop_prefix p' s' else None
  | String _ _, EmptyString => None
  end.

(** [str.upper] restricted to the letters a..z.  The other code points of
    0..255 that [str.upper] changes map to non-ASCII text or to "SS",
    which no keyword tested by the extension contains. *)
Definition upper_char (c : ascii) : ascii :=
  let n := nat_of_ascii c in
  if (97 <=? n)%nat && (n <=? 122)%nat then ascii_of_nat (n - 32) else c.

Fixpoint upper (s : string) : string :=
  match s with
  | EmptyString => EmptyString
  | String c s' => String (upper_char c) (upper s')
  end.

(** The run of non-space characters at the front of [s]. *)
Fixpoint take_token (s : string) : string :=
  match s with
  | EmptyString => EmptyString
  | String c s' => if isspace c then EmptyString else String c (take_token s')
  end.

(** [s.split(maxsplit=1)[0]], for [s] holding a non-space character. *)
Definition first_token (s : string) : string := take_token (lstrip s).

(** Substring test. *)
Fixpoint contains (p s : string) : bool :=
  startswith p s ||
  match s with
  | EmptyString => false
  | String _ s' => contains p s'
  end.

Lemma str_app_nil_l (s : string) : "" +:+ s = s.
Proof. reflexivity. Qed.

Lemma str_app_cons (c : ascii) (s t : string) :
  String c s +:+ t = String c (s +:+ t).
Proof. reflexivity. Qed.

Lemma str_app_nil_r (s : string) : s +:+ "" = s.
Proof. induction s as [|c s IH]; [done|]. by rewrite str_app_cons, IH. Qed.

Lemma str_app_assoc (s t u : string) : s +:+ (t +:+ u) = (s +:+ t) +:+ u.
Proof. induction s as [|c s IH]; [done|]. by rewrite !str_app_cons, IH. Qed.

End PyStr.

(** ** Regular expressions, as far as the statement splitter needs them

    The look-ahead of the splitting pattern is a regular expression in the
    strict sense (character classes, concatenation, alternation and
    repetition).  A look-ahead succeeds when some way of matching exists, so
    its backtracking search is modelled by language membership, decided with
    derivatives. *)

Module Regex.

Inductive regex : Type :=
| Void
| Eps
| Chr (p : ascii -> bool)
| Cat (r1 r2 : regex)
| Alt (r1 r2 : regex)
| Star (r : regex).

Fixpoint nullable (r : regex) : bool :=
  match r with
  | Void => false
  | Eps => true
  | Chr _ => false
  | Cat r1 r2 => nullable r1 && nullable r2
  | Alt r1 r2 => nullable r1 || nullable r2
  | Star _ => true
  end.

Fixpoint deriv (c : ascii) (r : regex) : regex :=
  match r with
  | Void => Void
  | Eps => Void
  | Chr p => if p c then Eps else Void
  | Cat r1 r2 =>
      if nullable r1
      then Alt (Cat (deriv c r1) r2) (deriv c r2)
      else Cat (deriv c r1) r2
  | Alt r1 r2 => Alt (deriv c r1) (deriv c r2)
  | Star r1 => Cat (deriv c r1) (Star r1)
  end.

(** The whole of [s] is a word of [r]. *)
Fixpoint matches (r : regex) (s : string) : bool :=
  match s with
  | EmptyString => nullable r
  | String c s' => matches (deriv c r) s'
  end.

(** The words of a regular expression, as a relation. *)
Inductive lang : regex -> string -> Prop :=
| lang_eps : lang Eps ""
| lang_chr p c : p c = true -> lang (Chr p) (String c "")
| lang_cat r1 r2 s1 s2 : lang r1 s1 -> lang r2 s2 -> lang (Cat r1 r2) (s1 +:+ s2)
| lang_alt_l r1 r2 s : lang r1 s -> lang (Alt r1 r2) s
| lang_alt_r r1 r2 s : lang r2 s -> lang (Alt r1 r2) s
| lang_star_nil r : lang (Star r) ""
| lang_star_cons r s1 s2 :
    lang r s1 -> lang (Star r) s2 -> lang (Star r) (s1 +:+ s2).

Definition lit (a : ascii) : regex := Chr (Ascii.eqb a).
Definition none_of (a b : ascii) : regex :=
  Chr (fun c => negb (Ascii.eqb c a) && negb (Ascii.eqb c b)).
Definition not_chr (a : ascii) : regex := Chr (fun c => negb (Ascii.eqb c a)).

End Regex.

(** ** The statement splitter of [_snowflake_sql_executor] *)

Module Splitter.
Import PyStr Regex.

Definition squote : ascii := "'"%char.
Definition dquote : ascii := "034"%char.
Definition semicolon : ascii := ";"%char.
Definition newline : ascii := "010"%char.

(** [(?:[^'dq]|'[^']*'|dq[^dq]*dq)*], writing dq for the double quote. *)
Definition quoted_tail : regex :=
  Star (Alt (Alt (none_of squote dquote)
                 (Cat (lit squote) (Cat (Star (not_chr squote)) (lit squote))))
            (Cat (lit dquote) (Cat (Star (not_chr dquote)) (lit dquote)))).

(** [$] without the MULTILINE flag holds at the end of the text and just
    before a line feed that ends the text. *)
Definition dollar : regex := Alt Eps (lit newline).

(** The look-ahead [(?=quoted_tail$)] on the text that follows a
    semicolon. *)
Definition lookahead (rest : string) : bool :=
  matches (Cat quoted_tail dollar) rest.

(** [re.split(pattern, s)] for the pattern [;(?=...)]: every match is one
    semicolon, and the pieces are the texts between the matches. *)
Fixpoint re_split (s : string) : list string :=
  match s with
  | EmptyString => [EmptyString]
  | String c s' =>
      if Ascii.eqb c semicolon && lookahead s'
      then EmptyString :: re_split s'
      else match re_split s' with
           | piece :: pieces => String c piece :: pieces
           | [] => [String c EmptyString]
           end
  end.

(** [[s.strip() for s in statements if s.strip()]] *)
Definition strip_nonempty (pieces : list string) : list string :=
  map strip (filter (fun s => truthy (strip s) = true) pieces).

(** The two lines that compute [statements] from [sql_query]. *)
Definition statements (sql_query : string) : list string :=
  strip_nonempty (re_split sql_query).

(** *** The splitter of the specification

    Scanning from the left, a quote character opens a span that runs to the
    next quote character of the same kind; a semicolon outside every span
    ends a statement. *)

Inductive quote_state := Outside | InSingle | InDouble.

Definition step (q : quote_state) (c : ascii) : quote_state :=
  if Ascii.eqb c squote then
    match q with Outside => InSingle | InSingle => Outside | InDouble => InDouble end
  else if Ascii.eqb c dquote then
    match q with Outside => InDouble | InDouble => Outside | InSingle => InSingle end
  else q.

Fixpoint scan (q : quote_state) (s : string) : quote_state :=
  match s with
  | EmptyString => q
  | String c s' => scan (step q c) s'
  end.

(** Every quote of the text is closed. *)
Definition balanced (s : string) : Prop := scan Outside s = Outside.

Fixpoint spec_split_from (q : quote_state) (s : string) : list string :=
  match s with
  | EmptyString => [EmptyString]
  | String c s' =>
      match q with
      | Outside =>
          if Ascii.eqb c semicolon then EmptyString :: spec_split_from Outside s'
          else match spec_split_from (step Outside c) s' with
               | piece :: pieces => String c piece :: pieces
               | [] => [String c EmptyString]
               end
      | _ =>
          match spec_split_from (step q c) s' with
          | piece :: pieces => String c piece :: pieces
          | [] => [String c EmptyString]
          end
      end
  end.

Definition spec_statements (sql_query : string) : list string :=
  strip_nonempty (spec_split_from Outside sql_query).

End Splitter.

(** ** Derivatives decide the words of a regular expression *)

Module RegexFacts.
Import PyStr Regex.

Lemma str_app_eq_nil (s t : string) : s +:+ t = "" -> s = "" /\ t = "".
Proof. destruct s; [done|]. rewrite str_app_cons. discriminate. Qed.

Lemma str_app_eq_cons (s t u : string) (c : ascii) :
  s +:+ t = String c u ->
  (s = "" /\ t = String c u) \/ (exists s', s = String c s' /\ u = s' +:+ t).
Proof.
  destruct s as [|a s]; [by left|].
  rewrite str_app_cons. intros [= -> <-]. right. by exists s.
Qed.

Lemma nullable_lang (r : regex) : nullable r = true <-> lang r "".
Proof.
  induction r as [| |p|r1 IH1 r2 IH2|r1 IH1 r2 IH2|r IH]; simpl.
  - split; [done|]. inversion 1.
  - split; [constructor|done].
  - split; [done|]. inversion 1.
  - rewrite andb_true_iff, IH1, IH2. split.
    + intros [H1 H2]. change "" with ("" +:+ ""). by constructor.
    + inversion 1 as [| |? ? s1 s2 H1 H2 [E1 E2] E| | | |]; subst.
      by destruct (str_app_eq_nil _ _ E) as [-> ->].
  - rewrite orb_true_iff, IH1, IH2. split.
    + intros [H|H]; [by apply lang_alt_l|by apply lang_alt_r].
    + inversion 1; subst; auto.
  - split; [constructor|done].
Qed.

Lemma lang_deriv (r : regex) (w : string) :
  lang r w -> forall c s, w = String c s -> lang (deriv c r) s.
Proof.
  induction 1 as [|p a Hp|r1 r2 s1 s2 H1 IH1 H2 IH2|r1 r2 s0 H IH|r1 r2 s0 H IH
                 |r|r s1 s2 H1 IH1 H2 IH2]; intros c s E; simpl.
  - discriminate.
  - injection E as -> <-. rewrite Hp. constructor.
  - destruct (str_app_eq_cons _ _ _ _ E) as [[-> ->]|[s' [-> ->]]].
    + apply nullable_lang in H1. rewrite H1. apply lang_alt_r. by apply IH2.
    + assert (lang (Cat (deriv c r1) r2) (s' +:+ s2))
        by (constructor; [by apply IH1|done]).
      destruct (nullable r1); [by apply lang_alt_l|done].
  - apply lang_alt_l. by apply IH.
  - apply lang_alt_r. by apply IH.
  - discriminate.
  - destruct (str_app_eq_cons _ _ _ _ E) as [[-> ->]|[s' [-> ->]]].
    + by apply IH2.
    + constructor; [by apply IH1|done].
Qed.

Lemma deriv_lang (r : regex) : forall c s, lang (deriv c r) s -> lang r (String c s).
Proof.
  induction r as [| |p|r1 IH1 r2 IH2|r1 IH1 r2 IH2|r IH]; simpl; intros c s H.
  - inversion H.
  - inversion H.
  - destruct (p c) eqn:Hp; inversion H; subst. by constructor.
  - assert (forall t, lang (Cat (deriv c r1) r2) t -> lang (Cat r1 r2) (String c t)) as Hcat.
    { intros t Ht. inversion Ht as [| |? ? s1 s2 G1 G2| | | |]; subst.
      rewrite <- str_app_cons. constructor; [by apply IH1|done]. }
    destruct (nullable r1) eqn:Hn; [|by apply Hcat].
    inversion H; subst; [by apply Hcat|].
    change (String c s) with ("" +:+ String c s).
    constructor; [by apply nullable_lang|by apply IH2].
  - inversion H; subst; [apply lang_alt_l|apply lang_alt_r]; auto.
  - inversion H as [| |? ? s1 s2 G1 G2| | | |]; subst.
    rewrite <- str_app_cons. constructor; [by apply IH|done].
Qed.

Lemma matches_lang (s : string) : forall r, matches r s = true <-> lang r s.
Proof.
  induction s as [|c s IH]; intros r; simpl.
  - apply nullable_lang.
  - rewrite IH. split; [apply deriv_lang|]. intros H. by eapply lang_deriv.
Qed.

End RegexFacts.

(** ** The pattern against the splitter of the specification *)

Module SplitterFacts.
Import PyStr Regex RegexFacts Splitter.

Lemma step_squote (q : quote_state) :
  step q squote = match q with Outside => InSingle | InSingle => Outside | InDouble => InDouble end.
Proof. reflexivity. Qed.

Lemma step_dquote (q : quote_state) :
  step q dquote = match q with Outside => InDouble | InDouble => Outside | InSingle => InSingle end.
Proof. reflexivity. Qed.

Lemma step_other (q : quote_state) (c : ascii) :
  c <> squote -> c <> dquote -> step q c = q.
Proof.
  intros H1 H2. unfold step.
  apply Ascii.eqb_neq in H1, H2. by rewrite H1, H2.
Qed.

Lemma step_in_single (c : ascii) : c <> squote -> step InSingle c = InSingle.
Proof.
  intros H. unfold step. apply Ascii.eqb_neq in H. rewrite H.
  by destruct (Ascii.eqb c dquote).
Qed.

Lemma step_in_double (c : ascii) : c <> dquote -> step InDouble c = InDouble.
Proof.
  intros H. unfold step. apply Ascii.eqb_neq in H. rewrite H.
  by destruct (Ascii.eqb c squote).
Qed.

(** Every character permutes the three states. *)
Lemma step_inj (c : ascii) (q1 q2 : quote_state) :
  step q1 c = step q2 c -> q1 = q2.
Proof.
  unfold step.
  destruct (Ascii.eqb c squote), (Ascii.eqb c dquote), q1, q2; congruence.
Qed.

Lemma scan_inj (s : string) : forall q1 q2, scan q1 s = scan q2 s -> q1 = q2.
Proof.
  induction s as [|c s IH]; simpl; intros q1 q2 H; [done|].
  by apply (step_inj c), IH.
Qed.

Lemma scan_app (s t : string) : forall q, scan q (s +:+ t) = scan (scan q s) t.
Proof. induction s as [|c s IH]; intros q; [done|]. rewrite str_app_cons. simpl. apply IH. Qed.

(** A run of characters that all leave [q] alone leaves [q] alone. *)
Lemma scan_star_chr (p : ascii -> bool) (q : quote_state) (u : string) :
  (forall c, p c = true -> step q c = q) ->
  lang (Star (Chr p)) u -> scan q u = q.
Proof.
  intros Hp H. remember (Star (Chr p)) as r eqn:Er.
  induction H as [| | | | | |r s1 s2 H1 _ H2 IH2]; try discriminate; [done|].
  injection Er as ->. rewrite scan_app.
  inversion H1; subst. simpl. rewrite Hp by done. by apply IH2.
Qed.

Lemma lang_lit (a : ascii) (s : string) : lang (lit a) s -> s = String a "".
Proof. inversion 1 as [|p c Hc| | | | |]; subst. by apply Ascii.eqb_eq in Hc as ->. Qed.

Lemma negb_eqb_true (c a : ascii) : negb (Ascii.eqb c a) = true <-> c <> a.
Proof. rewrite negb_true_iff. apply Ascii.eqb_neq. Qed.

(** One alternative of the look-ahead's repetition: a character that is no
    quote, or a closed quoted span. *)
Definition token : regex :=
  Alt (Alt (none_of squote dquote)
           (Cat (lit squote) (Cat (Star (not_chr squote)) (lit squote))))
      (Cat (lit dquote) (Cat (Star (not_chr dquote)) (lit dquote))).

Lemma scan_token (s : string) : lang token s -> scan Outside s = Outside.
Proof.
  intros H. unfold token in H.
  inversion H as [| | |? ? ? H1| ? ? ? H1| |]; subst; clear H.
  - inversion H1 as [| | |? ? ? H2| ? ? ? H2| |]; subst; clear H1.
    + inversion H2 as [|p c Hc| | | | |]; subst.
      apply andb_true_iff in Hc as [Hs Hd].
      apply negb_eqb_true in Hs, Hd. simpl. by rewrite step_other.
    + inversion H2 as [| |? ? s1 s2 G1 G2| | | |]; subst; clear H2.
      inversion G2 as [| |? ? s3 s4 G3 G4| | | |]; subst; clear G2.
      apply lang_lit in G1 as ->. apply lang_lit in G4 as ->.
      rewrite str_app_cons, str_app_nil_l. simpl. rewrite step_squote, scan_app.
      assert (scan InSingle s3 = InSingle) as ->; [|done].
      eapply scan_star_chr; [|exact G3].
      intros c Hc. by apply step_in_single, negb_eqb_true.
  - inversion H1 as [| |? ? s1 s2 G1 G2| | | |]; subst; clear H1.
    inversion G2 as [| |? ? s3 s4 G3 G4| | | |]; subst; clear G2.
    apply lang_lit in G1 as ->. apply lang_lit in G4 as ->.
    rewrite str_app_cons, str_app_nil_l. simpl. rewrite step_dquote, scan_app.
    assert (scan InDouble s3 = InDouble) as ->; [|done].
    eapply scan_star_chr; [|exact G3].
    intros c Hc. by apply step_in_double, negb_eqb_true.
Qed.

Lemma scan_quoted_tail (s : string) : lang quoted_tail s -> scan Outside s = Outside.
Proof.
  intros H. remember quoted_tail as r eqn:Er.
  induction H as [| | | | | |r s1 s2 H1 _ H2 IH2]; try discriminate; [done|].
  injection Er as ->. rewrite scan_app, scan_token by done. by apply IH2.
Qed.

Lemma lang_star_chr_cons (p : ascii -> bool) (c : ascii) (u : string) :
  p c = true -> lang (Star (Chr p)) u -> lang (Star (Chr p)) (String c u).
Proof.
  intros Hc Hu. change (String c u) with (String c "" +:+ u).
  constructor; [by constructor|done].
Qed.

Lemma lang_span (a : ascii) (u v : string) :
  lang (Star (not_chr a)) u ->
  lang (Cat (lit a) (Cat (Star (not_chr a)) (lit a))) (String a (u +:+ String a "")).
Proof.
  intros Hu. change (String a (u +:+ String a "")) with (String a "" +:+ (u +:+ String a "")).
  constructor; [constructor; apply Ascii.eqb_refl|].
  constructor; [done|]. constructor. apply Ascii.eqb_refl.
Qed.

(** What remains to be read, from each of the three states, for the scan to
    end outside every span. *)
Lemma lang_of_scan (s : string) :
  (scan Outside s = Outside -> lang quoted_tail s) /\
  (scan InSingle s = Outside ->
     exists u v, s = u +:+ String squote v /\
       lang (Star (not_chr squote)) u /\ lang quoted_tail v) /\
  (scan InDouble s = Outside ->
     exists u v, s = u +:+ String dquote v /\
       lang (Star (not_chr dquote)) u /\ lang quoted_tail v).
Proof.
  induction s as [|c s (IHo & IHs & IHd)]; simpl.
  { split; [constructor|]. split; discriminate. }
  destruct (Ascii.eqb_spec c squote) as [->|Hs];
    [|destruct (Ascii.eqb_spec c dquote) as [->|Hd]].
  - rewrite !step_squote. repeat split.
    + intros H. destruct (IHs H) as (u & v & -> & Hu & Hv).
      replace (String squote (u +:+ String squote v))
        with (String squote (u +:+ String squote "") +:+ v)
        by (rewrite str_app_cons, <- str_app_assoc; done).
      constructor; [|done]. apply lang_alt_l, lang_alt_r. by apply lang_span.
    + intros H. exists "", s. repeat split; [constructor|by apply IHo].
    + intros H. destruct (IHd H) as (u & v & -> & Hu & Hv).
      exists (String squote u), v. repeat split; [|done].
      by apply lang_star_chr_cons.
  - rewrite !step_dquote. repeat split.
    + intros H. destruct (IHd H) as (u & v & -> & Hu & Hv).
      replace (String dquote (u +:+ String dquote v))
        with (String dquote (u +:+ String dquote "") +:+ v)
        by (rewrite str_app_cons, <- str_app_assoc; done).
      constructor; [|done]. apply lang_alt_r. by apply lang_span.
    + intros H. destruct (IHs H) as (u & v & -> & Hu & Hv).
      exists (String dquote u), v. repeat split; [|done].
      by apply lang_star_chr_cons.
    + intros H. exists "", s. repeat split; [constructor|by apply IHo].
  - rewrite !step_other by done. repeat split.
    + intros H. change (String c s) with (String c "" +:+ s).
      constructor; [|by apply IHo].
      apply lang_alt_l, lang_alt_l. constructor.
      apply andb_true_iff. split; by apply negb_eqb_true.
    + intros H. destruct (IHs H) as (u & v & -> & Hu & Hv).
      exists (String c u), v. repeat split; [|done].
      apply lang_star_chr_cons; [|done]. by apply negb_eqb_true.
    + intros H. destruct (IHd H) as (u & v & -> & Hu & Hv).
      exists (String c u), v. repeat split; [|done].
      apply lang_star_chr_cons; [|done]. by apply negb_eqb_true.
Qed.

(** The look-ahead holds exactly when every quote of the rest is closed. *)
Lemma lookahead_balanced (rest : string) :
  lookahead rest = true <-> balanced rest.
Proof.
  unfold lookahead, balanced. rewrite matches_lang. split.
  - inversion 1 as [| |? ? s1 s2 H1 H2| | | |]; subst.
    rewrite scan_app, scan_quoted_tail by done.
    inversion H2 as [| | |? ? ? G|? ? ? G| |]; subst.
    + by inversion G.
    + by apply lang_lit in G as ->.
  - intros H. rewrite <- (str_app_nil_r rest).
    constructor; [by apply lang_of_scan|]. apply lang_alt_l. constructor.
Qed.

(** On a text whose quotes are all closed the pattern splits exactly at the
    semicolons that stand outside every quoted span. *)
Lemma re_split_spec (s : string) :
  forall q, scan q s = Outside -> re_split s = spec_split_from q s.
Proof.
  induction s as [|c s IH]; intros q Hq; [done|].
  simpl in Hq. simpl.
  destruct (Ascii.eqb_spec c semicolon) as [->|Hc]; simpl.
  - rewrite (step_other q semicolon) in Hq by done.
    destruct (lookahead s) eqn:Hl.
    + apply lookahead_balanced in Hl. unfold balanced in Hl.
      assert (q = Outside) as -> by (apply (scan_inj s); congruence).
      by rewrite (IH Outside).
    + assert (q <> Outside) as Hne.
      { intros ->. apply lookahead_balanced in Hq. congruence. }
      rewrite (IH q) by done.
      destruct q; [done| |]; by rewrite (step_other _ semicolon).
  - rewrite (IH (step q c)) by done.
    by destruct q.
Qed.

(** X3.  On a text whose quotes are all closed the statements are those of
    the splitter of the specification: the text is cut at the semicolons
    outside every quoted span, the pieces are stripped and the empty ones
    dropped. *)
Theorem statements_balanced (sql_query : string) :
  balanced sql_query -> statements sql_query = spec_statements sql_query.
Proof.
  intros H. unfold statements, spec_statements. by rewrite (re_split_spec _ Outside).
Qed.

(** The example of the specification: two statements, the first with its
    quoted semicolon. *)
Lemma statements_example :
  statements "SELECT ';' AS x; SELECT 2;" = ["SELECT ';' AS x"; "SELECT 2"].
Proof. vm_compute. reflexivity. Qed.

(** C1.  A quote that is never closed, here the apostrophe of a comment
    at the end of the block, turns the pattern around: it splits at the
    semicolon inside the quoted span 'a;b' and not at the semicolon that
    ends the first statement, where the splitter of the specification
    gives the two statements. *)
Theorem statements_unclosed_quote :
  statements "SELECT 'a;b' AS x; -- don't" = ["SELECT 'a"; "b' AS x; -- don't"]
  /\ spec_statements "SELECT 'a;b' AS x; -- don't" = ["SELECT 'a;b' AS x"; "-- don't"]
  /\ scan Outside "SELECT 'a;b' AS x; -- don't" = InSingle.
Proof. split; [|split]; vm_compute; reflexivity. Qed.

End SplitterFacts.

(** ** The file directive transform, [_process_file_directives] *)

Module FileDirectives.
Import PyStr Splitter.

(** What [open(file_path, "r")] followed by [f.read()] gives. *)
Inductive read_result :=
| ReadOk (content : string)
| FileNotFoundError
| ReadError (e : string).

(** The files as the extension sees them, by path. *)
Definition filesystem := string -> read_result.

(** The nested function [replace_directive], on the text of group 2. *)
Definition replace_directive (fs : filesystem) (group2 : string) : string :=
  let file_path := strip group2 in
  match fs file_path with
  | ReadOk content => "PARSE_JSON($$" +:+ content +:+ "$$)"
  | FileNotFoundError => "/* FILE NOT FOUND: " +:+ file_path +:+ " */"
  | ReadError e => "/* ERROR READING FILE " +:+ file_path +:+ ": " +:+ e +:+ " */"
  end.

Definition is_quote (q : ascii) : bool := Ascii.eqb q squote || Ascii.eqb q dquote.

(** The tail [(.*?)\1\)] of the pattern, after the quote [q] of group 1:
    the lazy repetition first tries to stop (the quote and a closing
    parenthesis follow), and otherwise takes one more character, which
    must not be a line feed.  The result is group 2 and the number of
    characters matched. *)
Fixpoint lazy_path (q : ascii) (s : string) : option (string * nat) :=
  match s with
  | EmptyString => None
  | String c s' =>
      if Ascii.eqb c q && startswith ")" s' then Some (EmptyString, 2)
      else if Ascii.eqb c newline then None
      else match lazy_path q s' with
           | Some (g, n) => Some (String c g, S n)
           | None => None
           end
  end.

(** A match of [FILE\((['dq])(.*?)\1\)] at the start of [s]: group 2 and the
    length of the match. *)
Definition pattern (s : string) : option (string * nat) :=
  match drop_prefix "FILE(" s with
  | Some (String q s1) =>
      if is_quote q then
        match lazy_path q s1 with
        | Some (g, n) => Some (g, 6 + n)
        | None => None
        end
      else None
  | _ => None
  end.

(** [pattern.sub(replace_directive, s)]: the text is read from the left;
    where the pattern matches, the replacement is written and the reading
    goes on after the match, of which [skip] characters are still to be
    passed over; other characters are copied. *)
Fixpoint sub (fs : filesystem) (skip : nat) (s : string) : string :=
  match s with
  | EmptyString => EmptyString
  | String c s' =>
      match skip with
      | S k => sub fs k s'
      | O =>
          match pattern s with
          | Some (g, n) => replace_directive fs g +:+ sub fs (Nat.pred n) s'
          | None => String c (sub fs 0 s')
          end
      end
  end.

Definition _process_file_directives (fs : filesystem) (sql_query : string) : string :=
  sub fs 0 sql_query.

(** A directive as written in a cell. *)
Definition directive (q : ascii) (path : string) : string :=
  "FILE(" +:+ String q (path +:+ String q ")").

(** A cell text cut into plain texts and directives:
    [t1 d1 t2 d2 ... tn dn last]. *)
Fixpoint render (parts : list (string * (ascii * string))) (last : string) : string :=
  match parts with
  | [] => last
  | (t, (q, path)) :: parts' => t +:+ directive q path +:+ render parts' last
  end.

Fixpoint expected (fs : filesystem) (parts : list (string * (ascii * string)))
    (last : string) : string :=
  match parts with
  | [] => last
  | (t, (q, path)) :: parts' =>
      t +:+ replace_directive fs path +:+ expected fs parts' last
  end.

Definition plain (t : string) : bool := negb (contains "FILE(" t).

Definition path_ok (q : ascii) (path : string) : bool :=
  is_quote q && negb (contains (String newline "") path)
  && negb (contains (String q ")") path).

Definition parts_ok (parts : list (string * (ascii * string))) : bool :=
  forallb (fun '(t, (q, path)) => plain t && path_ok q path) parts.

End FileDirectives.

(** ** Every directive is replaced *)

Module FileDirectivesFacts.
Import PyStr Splitter FileDirectives.

#[local] Arguments Ascii.eqb : simpl never.

Lemma str_length_app (s t : string) :
  String.length (s +:+ t) = String.length s + String.length t.
Proof. induction s as [|c s IH]; [done|]. rewrite str_app_cons. simpl. by rewrite IH. Qed.

(** The characters of a match are passed over. *)
Lemma sub_skip (fs : filesystem) (u s : string) :
  sub fs (String.length u) (u +:+ s) = sub fs 0 s.
Proof. induction u as [|c u IH]; [by destruct s|]. rewrite str_app_cons. simpl. apply IH. Qed.

Lemma startswith_contains (p s : string) :
  contains p s = false -> startswith p s = false.
Proof. destruct s; simpl; intros H; by apply orb_false_iff in H as [H _]. Qed.

Lemma startswith_cons (a c : ascii) (p s : string) :
  startswith (String a p) (String c s) = Ascii.eqb a c && startswith p s.
Proof. reflexivity. Qed.

Lemma contains_tail (p s : string) (c : ascii) :
  contains p (String c s) = false -> contains p s = false.
Proof. simpl. intros H. by apply orb_false_iff in H as [_ H]. Qed.

Lemma is_quote_not_paren (q : ascii) : is_quote q = true -> Ascii.eqb ")" q = false.
Proof.
  unfold is_quote. intros H. apply orb_true_iff in H as [H|H];
    apply Ascii.eqb_eq in H as ->; reflexivity.
Qed.

(** The lazy group stops at the first quote that a parenthesis follows. *)
Lemma lazy_path_directive (q : ascii) (path rest : string) :
  is_quote q = true ->
  contains (String newline "") path = false ->
  contains (String q ")") path = false ->
  lazy_path q (path +:+ String q (String ")" rest))
  = Some (path, String.length path + 2).
Proof.
  intros Hq. induction path as [|c path IH]; intros Hnl Hcl.
  - rewrite str_app_nil_l. simpl. by rewrite Ascii.eqb_refl.
  - rewrite str_app_cons. cbn [lazy_path].
    pose proof (startswith_contains _ _ Hnl) as Hnl0.
    pose proof (startswith_contains _ _ Hcl) as Hcl0.
    rewrite startswith_cons in Hnl0, Hcl0. cbn [startswith] in Hnl0.
    rewrite andb_true_r in Hnl0.
    rewrite (Ascii.eqb_sym c newline), Hnl0.
    rewrite IH by (by eapply contains_tail).
    assert (Ascii.eqb c q && startswith ")" (path +:+ String q (String ")" rest)) = false) as ->;
      [|done].
    rewrite (Ascii.eqb_sym c q). destruct (Ascii.eqb q c); [|done].
    rewrite andb_true_l in *.
    destruct path as [|d path]; [|by rewrite str_app_cons, startswith_cons in *].
    rewrite str_app_nil_l, startswith_cons. by rewrite is_quote_not_paren.
Qed.

Lemma pattern_directive (q : ascii) (path rest : string) :
  path_ok q path = true ->
  pattern (directive q path +:+ rest) = Some (path, 8 + String.length path).
Proof.
  unfold path_ok. rewrite !andb_true_iff, !negb_true_iff. intros [[Hq Hnl] Hcl].
  unfold directive, pattern.
  rewrite <- !str_app_assoc, !str_app_cons, !str_app_nil_l. simpl. rewrite Hq.
  rewrite <- str_app_assoc, !str_app_cons, str_app_nil_l.
  rewrite lazy_path_directive by done. do 2 f_equal. lia.
Qed.

(** A directive at the front of the text is replaced, and the reading goes
    on behind it. *)
Lemma sub_directive (fs : filesystem) (q : ascii) (path rest : string) :
  path_ok q path = true ->
  sub fs 0 (directive q path +:+ rest)
  = replace_directive fs path +:+ sub fs 0 rest.
Proof.
  intros Hok. pose proof (pattern_directive q path rest Hok) as Hp.
  remember (directive q path +:+ rest) as s eqn:Es.
  unfold directive in Es. rewrite !str_app_cons in Es.
  destruct s as [|c s]; [done|]. injection Es as -> ->.
  cbn [sub]. rewrite Hp. f_equal. cbn [Nat.pred Nat.add].
  rewrite str_app_nil_l.
  pose (u := String q (path +:+ String q ")")).
  assert (String.length u = S (S (S (String.length path)))) as <-.
  { unfold u. cbn [String.length]. rewrite str_length_app. simpl. lia. }
  apply sub_skip.
Qed.

Lemma drop_prefix_none (p s : string) :
  startswith p s = false -> drop_prefix p s = None.
Proof.
  revert s. induction p as [|a p IH]; intros [|b s]; simpl; try done.
  destruct (Ascii.eqb a b); [apply IH|done].
Qed.

(** A text that does not hold the opening of a directive cannot start one
    together with the text behind it, when that text is empty or begins
    with an F. *)
Lemma startswith_plain (c : ascii) (t rest : string) :
  startswith "FILE(" (String c t) = false ->
  rest = "" \/ startswith "F" rest = true ->
  startswith "FILE(" (String c t +:+ rest) = false.
Proof.
  intros Ht [->|Hr]; [by rewrite str_app_nil_r|].
  destruct rest as [|r rest]; [done|].
  rewrite startswith_cons, andb_true_r in Hr. apply Ascii.eqb_eq in Hr as <-.
  rewrite str_app_cons.
  destruct t as [|c2 [|c3 [|c4 [|c5 t]]]]; rewrite ?str_app_cons, ?str_app_nil_l;
    rewrite ?startswith_cons in *;
    repeat (match goal with
            | |- context [Ascii.eqb ?a c] => destruct (Ascii.eqb a c)
            | |- context [Ascii.eqb ?a c2] => destruct (Ascii.eqb a c2)
            | |- context [Ascii.eqb ?a c3] => destruct (Ascii.eqb a c3)
            | |- context [Ascii.eqb ?a c4] => destruct (Ascii.eqb a c4)
            | |- context [Ascii.eqb ?a c5] => destruct (Ascii.eqb a c5)
            end; rewrite ?andb_true_l, ?andb_false_l in *; try done).
Qed.

Lemma sub_plain (fs : filesystem) (t rest : string) :
  plain t = true ->
  rest = "" \/ startswith "F" rest = true ->
  sub fs 0 (t +:+ rest) = t +:+ sub fs 0 rest.
Proof.
  unfold plain. rewrite negb_true_iff. intros Ht Hr.
  induction t as [|c t IH]; [done|].
  assert (pattern (String c t +:+ rest) = None) as Hp.
  { unfold pattern. rewrite drop_prefix_none; [done|].
    apply startswith_plain; [by apply startswith_contains|done]. }
  rewrite str_app_cons in *. cbn [sub]. rewrite Hp, IH; [done|].
  by eapply contains_tail.
Qed.

Lemma sub_render (fs : filesystem) (parts : list (string * (ascii * string)))
    (last : string) :
  parts_ok parts = true -> plain last = true ->
  _process_file_directives fs (render parts last) = expected fs parts last.
Proof.
  unfold _process_file_directives. intros Hparts Hlast.
  induction parts as [|[t [q path]] parts IH]; simpl.
  - rewrite <- (str_app_nil_r last) at 1. rewrite sub_plain by auto. simpl.
    by rewrite str_app_nil_r.
  - simpl in Hparts. apply andb_true_iff in Hparts as [Hh Hparts].
    apply andb_true_iff in Hh as [Ht Hp].
    rewrite sub_plain; [|done|by right].
    by rewrite sub_directive, IH.
Qed.

End FileDirectivesFacts.

(** ** The extension [SnowflakeSqlMagics] *)

Module Magics.
Import PyStr Splitter FileDirectives.

(** An exception object: its class and [str(e)]. *)
Record exn := Exn { exn_class : string; exn_str : string }.

(** A [pandas.DataFrame], as far as the extension looks at it. *)
Record DataFrame := { columns : list string; rows : list (list string) }.

(** [df.empty] *)
Definition df_empty (df : DataFrame) : bool :=
  match columns df, rows df with
  | [], _ | _, [] => true
  | _, _ => false
  end.

(** One entry of [results]: a DataFrame or a message. *)
Inductive result :=
| Frame (df : DataFrame)
| Message (s : string).

(** An object bound in the interactive namespace [shell.user_ns]. *)
Inductive pyobj :=
| PyFrame (df : DataFrame)
| PyStr (s : string)
| PyOther (tag : nat).

(** The keyword arguments of [snowflake.connector.connect]; the
    authenticator is always SNOWFLAKE_JWT. *)
Record conn_params := {
  cp_account : option string;
  cp_user : option string;
  cp_role : option string;
  cp_private_key_file : option string;
  cp_private_key_file_pwd : option string
}.

(** A connection object: only [is_closed()] is asked of it. *)
Record connection := { is_closed : bool }.

Inductive fetch_pandas :=
| FetchFrame (df : DataFrame)
| NotSupportedError
| FetchRaises (e : exn).

(** What the cursor of one statement does when the executor calls it. *)
Record cursor := {
  execute : option exn;
  rowcount : option Z;
  description : bool;
  fetch_pandas_all : fetch_pandas;
  fetchall : option exn;
  close : option exn
}.

(** What the extension does to its surroundings, in order. *)
Inductive event :=
| Print (s : string)
| PrintExc (e : exn)
| Display (df : DataFrame)
| Connect (p : conn_params)
| Execute (statement : string).

(** The attributes of the extension object. *)
Record SnowflakeSqlMagics := {
  conn : option connection;
  _initialized : bool;
  account : option string;
  user : option string;
  role : option string;
  private_key_path : option string;
  private_key_passphrase : option string
}.

(** [__init__] *)
Definition init : SnowflakeSqlMagics :=
  {| conn := None; _initialized := false; account := None; user := None;
     role := None; private_key_path := None; private_key_passphrase := None |}.

Definition set_conn (c : option connection) (self : SnowflakeSqlMagics) :=
  {| conn := c; _initialized := _initialized self; account := account self;
     user := user self; role := role self;
     private_key_path := private_key_path self;
     private_key_passphrase := private_key_passphrase self |}.

Definition set_initialized (b : bool) (self : SnowflakeSqlMagics) :=
  {| conn := conn self; _initialized := b; account := account self;
     user := user self; role := role self;
     private_key_path := private_key_path self;
     private_key_passphrase := private_key_passphrase self |}.

(** The parsed options of the [%snowauth] line. *)
Record Namespace := {
  arg_account : option string;
  arg_user : option string;
  arg_role : option string;
  arg_private_key_path : option string;
  arg_private_key_passphrase : option string
}.

(** Truthiness of [None] or a [str]. *)
Definition truthy_opt (o : option string) : bool :=
  match o with Some s => truthy s | None => false end.

(** [a or b] *)
Definition py_or (a b : option string) : option string :=
  if truthy_opt a then a else b.

(** [all([...])] *)
Definition all (l : list (option string)) : bool := forallb truthy_opt l.

(** [statement.strip().split(maxsplit=1)[0].upper()] *)
Definition statement_type (statement : string) : string :=
  upper (first_token (strip statement)).

(** [message_map.get(statement_type)] for the four keys of the map. *)
Definition message_map (statement_type : string) : option string :=
  if String.eqb statement_type "INSERT" then Some "Number of rows inserted"
  else if String.eqb statement_type "UPDATE" then Some "Number of rows updated"
  else if String.eqb statement_type "DELETE" then Some "Number of rows deleted"
  else if String.eqb statement_type "MERGE" then Some "Number of rows affected"
  else None.

(** How an f-string shows [None], a [str] and an [int]. *)
Definition fmt_str (o : option string) : string :=
  match o with Some s => s | None => "None" end.

Definition fmt_int (o : option Z) : string :=
  match o with Some n => pretty n | None => "None" end.

(** The body of the loop of [_snowflake_sql_executor] once the cursor is
    there: [try: ... finally: cur.close()].  The value is what the body adds
    to [results], or the exception that leaves the [try] statement. *)
Definition run_cursor (cur : cursor) (statement : string) : exn + list result :=
  let body : exn + list result :=
    match execute cur with
    | Some e => inl e
    | None =>
        let statement_type := statement_type statement in
        match message_map statement_type with
        | Some message =>
            let r := Message (message +:+ ": " +:+ fmt_int (rowcount cur)) in
            match fetchall cur with
            | Some e => inl e
            | None => inr [r]
            end
        | None =>
            if description cur then
              match fetch_pandas_all cur with
              | FetchFrame df =>
                  if negb (df_empty df) then inr [Frame df]
                  else if startswith "SHOW" statement_type then
                    inr [Message "Show command executed successfully, but it did not produce any results to display."]
                  else inr []
              | NotSupportedError =>
                  match fetchall cur with
                  | Some e => inl e
                  | None => inr []
                  end
              | FetchRaises e => inl e
              end
            else inr [Message "Statement executed successfully."]
        end
    end in
  match close cur with
  | Some e => inl e
  | None => body
  end.

(** [[res for res in results if isinstance(res, pd.DataFrame)]] *)
Fixpoint dataframes (results : list result) : list DataFrame :=
  match results with
  | [] => []
  | Frame df :: rs => df :: dataframes rs
  | Message _ :: rs => dataframes rs
  end.

(** The rendering loop of [snowsql]. *)
Definition render_result (res : result) : event :=
  match res with
  | Frame df => Display df
  | Message s => Print s
  end.

Section Host.

(** The surroundings of the extension: the environment variables, the
    files, the connector and the warehouse behind the connection.  [run]
    gives, for the state of the warehouse and a statement, the state after
    that statement and either the exception of [conn.cursor()] or the
    cursor that is handed out. *)
Variable getenv : string -> option string.
Variable fs : filesystem.
Variable connect : conn_params -> exn + connection.
Variable DB : Type.
Variable run : DB -> string -> DB * (exn + cursor).

Definition params_of (self : SnowflakeSqlMagics) : conn_params :=
  {| cp_account := account self; cp_user := user self; cp_role := role self;
     cp_private_key_file := private_key_path self;
     cp_private_key_file_pwd := private_key_passphrase self |}.

(** [_create_connection]: the new object, the calls made and the exception
    raised, if any. *)
Definition _create_connection (self : SnowflakeSqlMagics)
  : SnowflakeSqlMagics * list event * option exn :=
  let needed := match conn self with None => true | Some c => is_closed c end in
  if needed then
    match connect (params_of self) with
    | inl e => (self, [Connect (params_of self)], Some e)
    | inr c => (set_conn (Some c) self, [Connect (params_of self)], None)
    end
  else (self, [], None).

(** The [for statement in statements] loop. *)
Fixpoint exec_loop (d : DB) (stmts : list string) (results : list result)
  : DB * list event * (exn + list result) :=
  match stmts with
  | [] => (d, [], inr results)
  | statement :: rest =>
      match run d statement with
      | (d', inl e) => (d', [], inl e)
      | (d', inr cur) =>
          match run_cursor cur statement with
          | inl e => (d', [Execute statement], inl e)
          | inr new =>
              let '(d'', ev, r) := exec_loop d' rest (results ++ new) in
              (d'', Execute statement :: ev, r)
          end
      end
  end.

Definition _snowflake_sql_executor (self : SnowflakeSqlMagics) (d : DB)
    (sql_query : string)
  : SnowflakeSqlMagics * DB * list event * (exn + list result) :=
  match _create_connection self with
  | (self', ev, Some e) => (self', d, ev, inl e)
  | (self', ev, None) =>
      let '(d', ev', r) := exec_loop d (statements sql_query) [] in
      (self', d', ev ++ ev', r)
  end.

(** [_initialize_connection] *)
Definition _initialize_connection (args : Namespace) (self : SnowflakeSqlMagics)
  : SnowflakeSqlMagics * list event :=
  let self1 :=
    {| conn := conn self; _initialized := _initialized self;
       account := py_or (arg_account args) (getenv "SNOWFLAKE_ACCOUNT");
       user := py_or (arg_user args) (getenv "SNOWFLAKE_USER");
       role := py_or (arg_role args) (getenv "SNOWFLAKE_ROLE");
       private_key_path :=
         py_or (arg_private_key_path args) (getenv "SNOWFLAKE_PRIVATE_KEY_PATH");
       private_key_passphrase :=
         py_or (arg_private_key_passphrase args)
               (getenv "SNOWFLAKE_PRIVATE_KEY_PASSPHRASE") |} in
  let hello := Print "Initializing new Snowflake connection..." in
  if negb (all [account self1; user self1; role self1; private_key_path self1])
  then
    (self1,
     [hello;
      Print "Error: Missing connection parameters for initialization. Provide them as arguments or environment variables."])
  else
    match _create_connection self1 with
    | (self2, ev, None) =>
        (set_initialized true self2,
         hello :: ev ++ [Print "Snowflake connection successful."])
    | (self2, ev, Some e) =>
        (set_initialized false self2,
         hello :: ev ++
         [Print ("An error occurred in initialization: " +:+ exn_str e);
          PrintExc e])
    end.

(** [snowauth], on the options that [_parse_args] read from the line. *)
Definition snowauth (args : Namespace) (self : SnowflakeSqlMagics) :=
  _initialize_connection args self.

(** The session as [snowsql] sees it. *)
Record session := {
  self_ : SnowflakeSqlMagics;
  user_ns : gmap string pyobj;
  db : DB
}.

(** The [if var_name:] block. *)
Definition bind (var_name : string) (dataframe_results : list DataFrame)
    (ns : gmap string pyobj) : gmap string pyobj * list event :=
  if truthy var_name then
    let warn :=
      if (1 <? length dataframe_results)%nat then
        [Print ("Warning: Multiple DataFrames returned, only the last one will be assigned to '"
                +:+ var_name +:+ "'.")]
      else [] in
    match last dataframe_results with
    | Some df =>
        (<[var_name := PyFrame df]> ns,
         warn ++ [Print ("Result stored in DataFrame '" +:+ var_name +:+ "'.")])
    | None =>
        (ns,
         warn ++ [Print ("Warning: No DataFrame returned to assign to '"
                         +:+ var_name +:+ "'.")])
    end
  else (ns, []).

(** The [if results:] block. *)
Definition show (results : list result) : list event :=
  match results with
  | [] => [Print "Query executed successfully, but it did not produce any results to display."]
  | _ => map render_result results
  end.

(** [snowsql(line, cell)] *)
Definition snowsql (line cell : string) (st : session) : session * list event :=
  let var_name := strip line in
  if negb (_initialized (self_ st)) then
    (st, [Print "Error: Snowflake connection not initialized. Please run %snowauth first."])
  else
    let processed_cell := _process_file_directives fs cell in
    match _snowflake_sql_executor (self_ st) (db st) processed_cell with
    | (self', d', ev, inr results) =>
        let dataframe_results := dataframes results in
        let '(ns', ev_bind) := bind var_name dataframe_results (user_ns st) in
        ({| self_ := self'; user_ns := ns'; db := d' |},
         ev ++ ev_bind ++ show results)
    | (self', d', ev, inl e) =>
        ({| self_ := self'; user_ns := user_ns st; db := d' |},
         ev ++ [Print ("An error occurred: " +:+ exn_str e); PrintExc e])
    end.

End Host.

Arguments exec_loop {DB}.
Arguments _snowflake_sql_executor connect {DB}.
Arguments self_ {DB}.
Arguments user_ns {DB}.
Arguments db {DB}.
Arguments snowsql fs connect {DB}.

End Magics.

(** ** Properties of the two commands *)

Module MagicsFacts.
Import PyStr Splitter FileDirectives Magics.

(** Whether a statement fails in the warehouse state [d]: the exception,
    the calls made on the way, and the state left behind. *)
Definition raises {DB : Type} (run : DB -> string -> DB * (exn + cursor))
    (d : DB) (statement : string) : option (exn * list event * DB) :=
  match run d statement with
  | (d', inl e) => Some (e, [], d')
  | (d', inr cur) =>
      match run_cursor cur statement with
      | inl e => Some (e, [Execute statement], d')
      | inr _ => None
      end
  end.

Definition is_display (ev : event) : bool :=
  match ev with Display _ => true | _ => false end.

Definition is_print_exc (ev : event) : bool :=
  match ev with PrintExc _ => true | _ => false end.

Definition is_connect (ev : event) : bool :=
  match ev with Connect _ => true | _ => false end.

Section HostFacts.

Variable getenv : string -> option string.
Variable fs : filesystem.
Variable connect : conn_params -> exn + connection.
Variable DB : Type.
Variable run : DB -> string -> DB * (exn + cursor).

Lemma create_connection_events (self self' : SnowflakeSqlMagics)
    (ev : list event) (r : option exn) :
  _create_connection connect self = (self', ev, r) ->
  Forall (fun x => is_connect x = true) ev.
Proof.
  unfold _create_connection.
  destruct (match conn self with Some c => is_closed c | None => true end).
  - destruct (connect (params_of self)); intros [= <- <- <-]; by repeat constructor.
  - intros [= <- <- <-]. constructor.
Qed.

(** A loop that runs to its end has sent every statement, in order. *)
Lemma exec_loop_ok (stmts : list string) :
  forall d acc d' ev res,
    exec_loop run d stmts acc = (d', ev, inr res) ->
    ev = map Execute stmts.
Proof.
  induction stmts as [|s stmts IH]; intros d acc d' ev res; simpl.
  - by intros [= <- <- <-].
  - destruct (run d s) as [d1 [e|cur]]; [done|].
    destruct (run_cursor cur s) as [e|new]; [done|].
    destruct (exec_loop run d1 stmts (acc ++ new)) as [[d2 ev2] r] eqn:E.
    intros [= <- <- ->]. f_equal. by eapply IH.
Qed.

(** The loop over [pre ++ rest] is the loop over [pre] followed, when that
    one ends without an exception, by the loop over [rest]. *)
Lemma exec_loop_app (pre rest : list string) :
  forall d acc d1 ev1 res,
    exec_loop run d pre acc = (d1, ev1, inr res) ->
    exec_loop run d (pre ++ rest) acc =
    (let '(d2, ev2, r) := exec_loop run d1 rest res in (d2, ev1 ++ ev2, r)).
Proof.
  induction pre as [|s pre IH]; intros d acc d1 ev1 res; simpl.
  - intros [= <- <- <-]. by destruct (exec_loop run d rest acc) as [[? ?] ?].
  - destruct (run d s) as [d' [e|cur]]; [done|].
    destruct (run_cursor cur s) as [e|new]; [done|].
    destruct (exec_loop run d' pre (acc ++ new)) as [[d2 ev2] r] eqn:E.
    intros [= <- <- ->]. rewrite (IH _ _ _ _ _ E).
    by destruct (exec_loop run d2 rest res) as [[? ?] ?].
Qed.

(** The first failing statement ends the loop. *)
Lemma exec_loop_raises (d : DB) (s : string) (post : list string)
    (acc : list result) (e : exn) (evs : list event) (d' : DB) :
  raises run d s = Some (e, evs, d') ->
  exec_loop run d (s :: post) acc = (d', evs, inl e).
Proof.
  unfold raises. simpl. destruct (run d s) as [d1 [e1|cur]].
  - by intros [= <- <- <-].
  - destruct (run_cursor cur s) as [e1|new]; [|done]. by intros [= <- <- <-].
Qed.

(** Every message that the executor collects starts with N or S. *)
Definition collected (r : result) : Prop :=
  match r with
  | Frame _ => True
  | Message m => startswith "N" m = true \/ startswith "S" m = true
  end.

Lemma run_cursor_collected (cur : cursor) (s : string) (new : list result) :
  run_cursor cur s = inr new -> Forall collected new.
Proof.
  unfold run_cursor. destruct (close cur); [done|].
  destruct (execute cur); [done|].
  unfold message_map.
  repeat match goal with
         | |- context [String.eqb ?a ?b] => destruct (String.eqb a b)
         end;
    try (destruct (fetchall cur); [done|]; intros [= <-];
         constructor; [by left|constructor]).
  destruct (description cur).
  - destruct (fetch_pandas_all cur) as [df| |e]; [| |done].
    + destruct (negb (df_empty df)); [intros [= <-]; by constructor|].
      destruct (startswith "SHOW" _); intros [= <-]; [|constructor].
      constructor; [by right|constructor].
    + destruct (fetchall cur); [done|]. intros [= <-]. constructor.
  - intros [= <-]. constructor; [by right|constructor].
Qed.

Lemma exec_loop_collected (stmts : list string) :
  forall d acc d' ev res,
    Forall collected acc ->
    exec_loop run d stmts acc = (d', ev, inr res) ->
    Forall collected res.
Proof.
  induction stmts as [|s stmts IH]; intros d acc d' ev res Hacc; simpl.
  - by intros [= <- <- <-].
  - destruct (run d s) as [d1 [e|cur]]; [done|].
    destruct (run_cursor cur s) as [e|new] eqn:Hc; [done|].
    destruct (exec_loop run d1 stmts (acc ++ new)) as [[d2 ev2] r] eqn:E.
    intros [= <- <- ->]. eapply IH; [|exact E].
    apply Forall_app. split; [done|]. by eapply run_cursor_collected.
Qed.

(** Events that neither print nor display anything. *)
Definition silent (x : event) : Prop :=
  match x with Connect _ | Execute _ => True | _ => False end.

Lemma silent_connect (ev : list event) :
  Forall (fun x => is_connect x = true) ev -> Forall silent ev.
Proof. intros H. eapply Forall_impl; [exact H|]. by intros []. Qed.

Lemma silent_execute (stmts : list string) : Forall silent (map Execute stmts).
Proof. induction stmts; by constructor. Qed.

Lemma silent_filter (f : event -> bool) (ev : list event) :
  (forall x, silent x -> f x = false) ->
  Forall silent ev -> filter (fun x => f x = true) ev = [].
Proof.
  intros Hf. induction 1 as [|x ev Hx _ IH]; [done|].
  rewrite filter_cons, (Hf x Hx), IH. by case_decide.
Qed.

(** C3.  When a statement of the block raises, the statements before it
    have been sent and none after it; the command reports that one error
    and its trace, displays nothing, renders none of the results that the
    earlier statements produced, and binds no variable. *)
Theorem snowsql_first_failure (line cell : string) (st : session DB)
    (pre post : list string) (s : string) (self1 : SnowflakeSqlMagics)
    (evc evp evs : list event) (d1 d2 : DB) (res : list result) (e : exn) :
  _initialized (self_ st) = true ->
  _create_connection connect (self_ st) = (self1, evc, None) ->
  statements (_process_file_directives fs cell) = pre ++ s :: post ->
  exec_loop run (db st) pre [] = (d1, evp, inr res) ->
  raises run d1 s = Some (e, evs, d2) ->
  let events :=
    evc ++ map Execute pre ++ evs ++
    [Print ("An error occurred: " +:+ exn_str e); PrintExc e] in
  snowsql fs connect run line cell st
  = ({| self_ := self1; user_ns := user_ns st; db := d2 |}, events)
  /\ (evs = [] \/ evs = [Execute s])
  /\ filter (fun x => is_print_exc x = true) events = [PrintExc e]
  /\ filter (fun x => is_display x = true) events = []
  /\ Forall (fun r => render_result r ∉ events) res.
Proof.
  intros Hinit Hconn Hstmts Hpre Hs events.
  assert (evs = [] \/ evs = [Execute s]) as Hevs.
  { unfold raises in Hs. destruct (run d1 s) as [d' [e1|cur]].
    - injection Hs as <- <- <-. by left.
    - destruct (run_cursor cur s); [|done]. injection Hs as <- <- <-. by right. }
  assert (Forall silent (evc ++ map Execute pre ++ evs)) as Hsilent.
  { rewrite !Forall_app. split; [|split].
    - eapply silent_connect, create_connection_events, Hconn.
    - apply silent_execute.
    - destruct Hevs as [->| ->]; by repeat constructor. }
  repeat split.
  - unfold snowsql, _snowflake_sql_executor. rewrite Hinit, Hconn, Hstmts. simpl.
    rewrite (exec_loop_app _ _ _ _ _ _ _ Hpre).
    rewrite (exec_loop_raises _ _ _ _ _ _ _ Hs).
    rewrite (exec_loop_ok _ _ _ _ _ _ Hpre). unfold events.
    by rewrite <- !(assoc_L (++)).
  - done.
  - unfold events. rewrite !(assoc_L (++)), filter_app.
    rewrite <- !(assoc_L (++)), (silent_filter is_print_exc); [done| |done].
    by intros [].
  - unfold events. rewrite !(assoc_L (++)), filter_app.
    rewrite <- !(assoc_L (++)), (silent_filter is_display); [done| |done].
    by intros [].
  - pose proof (exec_loop_collected _ _ _ _ _ _ (Forall_nil_2 _) Hpre) as Hres.
    eapply Forall_impl; [exact Hres|]. intros r Hr Hin. unfold events in Hin.
    rewrite !(assoc_L (++)) in Hin. apply elem_of_app in Hin as [Hin|Hin].
    + rewrite <- !(assoc_L (++)) in Hin.
      rewrite Forall_forall in Hsilent. specialize (Hsilent _ Hin).
      by destruct r.
    + destruct r as [df|m]; simpl in Hin, Hr.
      * apply elem_of_cons in Hin as [?|Hin]; [done|].
        by apply list_elem_of_singleton in Hin.
      * apply elem_of_cons in Hin as [[= ->]|Hin].
        -- destruct Hr as [Hr|Hr]; discriminate Hr.
        -- by apply list_elem_of_singleton in Hin.
Qed.

(** A block that runs to its end sends the statements of the transformed
    text: the directives are replaced first, in the whole cell, and the
    result is split afterwards. *)
Lemma snowsql_pipeline (self self1 : SnowflakeSqlMagics) (d d1 : DB)
    (cell : string) (ev : list event) (results : list result) :
  _snowflake_sql_executor connect run self d (_process_file_directives fs cell)
  = (self1, d1, ev, inr results) ->
  filter (fun x => is_connect x = false) ev
  = map Execute (statements (_process_file_directives fs cell)).
Proof.
  unfold _snowflake_sql_executor.
  destruct (_create_connection connect self) as [[self' evc] [e|]] eqn:Hc; [done|].
  destruct (exec_loop run d _ []) as [[d2 ev2] r] eqn:Hl.
  intros [= <- <- <- ->]. rewrite (exec_loop_ok _ _ _ _ _ _ Hl), filter_app.
  apply create_connection_events in Hc.
  assert (filter (fun x => is_connect x = false) evc = []) as ->.
  { induction Hc as [|x l Hx _ IH]; [done|]. rewrite filter_cons, IH.
    case_decide; congruence. }
  generalize (statements (_process_file_directives fs cell)).
  intros l. induction l as [|s l IH]; [done|].
  simpl. rewrite filter_cons. case_decide; [|done]. by f_equal.
Qed.

(** C6.  With a target variable, the last DataFrame of the results, in the
    order of execution, is bound to it and nothing else changes in the
    namespace; more than one DataFrame gives the warning that only the
    last is assigned, none gives the warning that nothing was assigned,
    and no message is ever bound. *)
Theorem snowsql_binds_last_dataframe (line cell : string) (st : session DB)
    (self1 : SnowflakeSqlMagics) (d1 : DB) (ev : list event)
    (results : list result) :
  _initialized (self_ st) = true ->
  truthy (strip line) = true ->
  _snowflake_sql_executor connect run (self_ st) (db st)
    (_process_file_directives fs cell) = (self1, d1, ev, inr results) ->
  let var_name := strip line in
  let st' := fst (snowsql fs connect run line cell st) in
  let events := snd (snowsql fs connect run line cell st) in
  match last (dataframes results) with
  | Some df =>
      user_ns st' = <[var_name := PyFrame df]> (user_ns st) /\
      Print ("Result stored in DataFrame '" +:+ var_name +:+ "'.") ∈ events
  | None =>
      user_ns st' = user_ns st /\
      Print ("Warning: No DataFrame returned to assign to '" +:+ var_name +:+ "'.")
        ∈ events
  end
  /\ ((1 < length (dataframes results))%nat ->
      Print ("Warning: Multiple DataFrames returned, only the last one will be assigned to '"
             +:+ var_name +:+ "'.") ∈ events)
  /\ (forall k m, user_ns st' !! k = Some (PyStr m) ->
                  user_ns st !! k = Some (PyStr m)).
Proof.
  intros Hinit Hvar Hexec. cbv zeta.
  unfold snowsql. rewrite Hinit, Hexec. cbn [negb].
  unfold bind. rewrite Hvar.
  destruct (last (dataframes results)) as [df|] eqn:Hlast; cbn [fst snd user_ns].
  - repeat split.
    + rewrite !elem_of_app. right. left. right. apply elem_of_cons. by left.
    + intros Hlen. apply Nat.ltb_lt in Hlen. rewrite Hlen.
      rewrite !elem_of_app. right. left. left. apply elem_of_cons. by left.
    + intros k m. destruct (decide (k = strip line)) as [->|Hne].
      * by rewrite lookup_insert_eq.
      * by rewrite lookup_insert_ne.
  - repeat split.
    + rewrite !elem_of_app. right. left. right. apply elem_of_cons. by left.
    + intros Hlen. apply Nat.ltb_lt in Hlen. rewrite Hlen.
      rewrite !elem_of_app. right. left. left. apply elem_of_cons. by left.
    + done.
Qed.

(** The stored parameters after a call, in the words of the code. *)
Lemma initialize_parameters (args : Namespace) (self : SnowflakeSqlMagics) :
  let self' := fst (_initialize_connection getenv connect args self) in
  let events := snd (_initialize_connection getenv connect args self) in
  account self' = py_or (arg_account args) (getenv "SNOWFLAKE_ACCOUNT")
  /\ user self' = py_or (arg_user args) (getenv "SNOWFLAKE_USER")
  /\ role self' = py_or (arg_role args) (getenv "SNOWFLAKE_ROLE")
  /\ private_key_path self'
     = py_or (arg_private_key_path args) (getenv "SNOWFLAKE_PRIVATE_KEY_PATH")
  /\ private_key_passphrase self'
     = py_or (arg_private_key_passphrase args)
             (getenv "SNOWFLAKE_PRIVATE_KEY_PASSPHRASE")
  /\ (all [account self'; user self'; role self'; private_key_path self'] = false ->
      _initialized self' = _initialized self
      /\ conn self' = conn self
      /\ filter (fun x => is_connect x = true) events = []
      /\ (_initialized self = true ->
          _initialized self' = true /\
          all [account self'; user self'; role self'; private_key_path self'] = false)).
Proof.
  intros self' events. unfold self', events, _initialize_connection.
  set (self1 := Build_SnowflakeSqlMagics _ _ _ _ _ _ _).
  destruct (negb (all [account self1; user self1; role self1; private_key_path self1]))
    eqn:Hall; cbn [fst snd].
  - by repeat split.
  - apply negb_false_iff in Hall.
    assert (forall s2 ev r, _create_connection connect self1 = (s2, ev, r) ->
              account s2 = account self1 /\ user s2 = user self1 /\
              role s2 = role self1 /\ private_key_path s2 = private_key_path self1 /\
              private_key_passphrase s2 = private_key_passphrase self1) as Hsame.
    { unfold _create_connection. intros s2 ev r.
      destruct (match conn self1 with Some c => is_closed c | None => true end);
        [destruct (connect (params_of self1))|]; by intros [= <- <- <-]. }
    destruct (_create_connection connect self1) as [[s2 ev] [e|]] eqn:Hc;
      destruct (Hsame _ _ _ eq_refl) as (Ha & Hu & Hr & Hk & Hp); cbn [fst snd];
      cbn [account user role private_key_path private_key_passphrase set_initialized];
      rewrite Ha, Hu, Hr, Hk, Hp; repeat split; try done; congruence.
Qed.

(** [a or b] is [a] when [a] is a string that is not empty, and [b] when
    [a] is None or the empty string. *)
Lemma py_or_cases (a b : option string) :
  py_or a b = match a with
              | Some (String c s) => Some (String c s)
              | _ => b
              end.
Proof. by destruct a as [[|c s]|]. Qed.

Lemma all_missing (l : list (option string)) :
  (exists x, x ∈ l /\ (x = None \/ x = Some "")) -> all l = false.
Proof.
  intros (x & Hin & Hx). unfold all.
  induction Hin as [x l|x y l Hin IH]; cbn [forallb].
  - by destruct Hx as [-> | ->].
  - rewrite IH by done. apply andb_false_r.
Qed.

(** C10.  On every call each of the five stored parameters is replaced by
    its argument when that is a string that is not empty, and otherwise by
    the value of its environment variable (None when that is not set),
    whatever the outcome of the call.  When one of the four required ones
    is then None or empty, the call prints its two lines, attempts no
    connection and leaves the connection object and the initialized flag
    as they were: an extension that was initialized stays so, with the new,
    incomplete parameters. *)
Theorem initialize_overwrites_parameters (args : Namespace)
    (self : SnowflakeSqlMagics) :
  let self' := fst (_initialize_connection getenv connect args self) in
  let events := snd (_initialize_connection getenv connect args self) in
  let resolved (arg : option string) (variable : string) : option string :=
    match arg with
    | Some (String c s) => Some (String c s)
    | _ => getenv variable
    end in
  account self' = resolved (arg_account args) "SNOWFLAKE_ACCOUNT"
  /\ user self' = resolved (arg_user args) "SNOWFLAKE_USER"
  /\ role self' = resolved (arg_role args) "SNOWFLAKE_ROLE"
  /\ private_key_path self'
     = resolved (arg_private_key_path args) "SNOWFLAKE_PRIVATE_KEY_PATH"
  /\ private_key_passphrase self'
     = resolved (arg_private_key_passphrase args) "SNOWFLAKE_PRIVATE_KEY_PASSPHRASE"
  /\ ((exists x, x ∈ [account self'; user self'; role self'; private_key_path self']
                 /\ (x = None \/ x = Some "")) ->
      _initialized self' = _initialized self
      /\ conn self' = conn self
      /\ events =
         [Print "Initializing new Snowflake connection...";
          Print "Error: Missing connection parameters for initialization. Provide them as arguments or environment variables."]
      /\ (_initialized self = true -> _initialized self' = true)).
Proof.
  cbv zeta.
  destruct (initialize_parameters args self) as (Ha & Hu & Hr & Hk & Hp & Hmiss).
  rewrite py_or_cases in Ha, Hu, Hr, Hk, Hp.
  do 5 (split; [done|]). intros Hex.
  destruct (Hmiss (all_missing _ Hex)) as (Hi & Hc & _ & _).
  split; [done|]. split; [done|]. split; [|congruence].
  apply all_missing in Hex. clear -Hex.
  unfold _initialize_connection in *. cbn [account user role private_key_path] in *.
  destruct (negb (all _)) eqn:E; [done|].
  cbn [fst] in Hex.
  destruct (_create_connection connect _) as [[s2 ev] [e|]] eqn:Hc;
    cbn [fst account user role private_key_path set_initialized] in Hex;
    unfold _create_connection in Hc;
    destruct (match conn _ with Some c => is_closed c | None => true end);
    try destruct (connect _); injection Hc as <- <-;
    cbn [account user role private_key_path set_conn] in Hex;
    apply negb_false_iff in E; congruence.
Qed.

End HostFacts.

End MagicsFacts.

(** ** The extension on a small host *)

Module MagicsExamples.
Import PyStr Splitter FileDirectives FileDirectivesFacts Magics MagicsFacts.

(** No environment variable is set. *)
Definition no_env : string -> option string := fun _ => None.

(** A connector that always hands out an open connection. *)
Definition open_connection : conn_params -> exn + connection :=
  fun _ => inr {| is_closed := false |}.

Definition one_row : DataFrame := {| columns := ["X"]; rows := [["1"]] |}.

Definition sql_error : exn :=
  {| exn_class := "ProgrammingError"; exn_str := "SQL compilation error" |}.

(** A warehouse that counts the statements it gets, rejects those that
    start with BAD, and answers every SELECT with one row. *)
Definition demo_run (d : nat) (statement : string) : nat * (exn + cursor) :=
  (S d,
   inr {| execute := if startswith "BAD" statement then Some sql_error else None;
          rowcount := Some 1%Z;
          description := startswith "SELECT" statement;
          fetch_pandas_all := FetchFrame one_row;
          fetchall := None;
          close := None |}).

(** The text of the JSON object with the key k and the value 1. *)
Definition k1_json : string := "{" +:+ String dquote ("k" +:+ String dquote ":1}").

Definition demo_fs : filesystem :=
  fun path => if String.eqb path "a.json" then ReadOk k1_json else FileNotFoundError.

Definition full_args : Namespace :=
  {| arg_account := Some "acct"; arg_user := Some "me"; arg_role := Some "dev";
     arg_private_key_path := Some "key.p8"; arg_private_key_passphrase := None |}.

Definition no_args : Namespace :=
  {| arg_account := None; arg_user := None; arg_role := None;
     arg_private_key_path := None; arg_private_key_passphrase := None |}.

(** The extension after a successful [%snowauth]. *)
Definition authenticated : SnowflakeSqlMagics :=
  fst (snowauth no_env open_connection full_args init).

Definition demo_session : session nat :=
  {| self_ := authenticated; user_ns := ∅; db := 0 |}.

Definition demo_cell : string :=
  "INSERT INTO t SELECT FILE('a.json'); BAD; SELECT 1".

Definition demo_insert : string :=
  "INSERT INTO t SELECT PARSE_JSON($$" +:+ k1_json +:+ "$$)".

Lemma startswith_app (p s : string) : startswith p (p +:+ s) = true.
Proof.
  induction p as [|c p IH]; [done|].
  rewrite str_app_cons. simpl. by rewrite Ascii.eqb_refl.
Qed.

Lemma contains_app_l (p s t : string) :
  contains p s = true -> contains p (t +:+ s) = true.
Proof.
  intros H. induction t as [|c t IH]; [done|].
  rewrite str_app_cons. simpl. rewrite IH. apply orb_true_r.
Qed.

Lemma contains_middle (p s t : string) : contains p (s +:+ p +:+ t) = true.
Proof.
  apply contains_app_l. destruct (p +:+ t) eqn:E; simpl;
    rewrite <- E, startswith_app; done.
Qed.

(** In a text cut into plain texts and directives every directive is
    replaced, and nothing else changes; the replacement embeds the whole
    content of the file named by the path between dollar quotes in a call
    of PARSE_JSON, or is a comment that holds FILE NOT FOUND and the path
    when the file is missing, or a comment that holds the error text when
    reading fails otherwise; and the statements that a block sends are
    those of the text after the replacement. *)
Lemma file_directives_replaced (fs : filesystem)
    (parts : list (string * (ascii * string))) (last : string) :
  parts_ok parts = true -> plain last = true ->
  _process_file_directives fs (render parts last) = expected fs parts last
  /\ (forall path content, fs (strip path) = ReadOk content ->
        replace_directive fs path = "PARSE_JSON($$" +:+ content +:+ "$$)")
  /\ (fs "a.json" = ReadOk k1_json ->
        _process_file_directives fs "FILE('a.json')"
        = "PARSE_JSON($$" +:+ k1_json +:+ "$$)")
  /\ (forall path, fs (strip path) = FileNotFoundError ->
        contains "FILE NOT FOUND" (replace_directive fs path) = true /\
        contains (strip path) (replace_directive fs path) = true /\
        startswith "/*" (replace_directive fs path) = true)
  /\ (forall path e, fs (strip path) = ReadError e ->
        contains e (replace_directive fs path) = true /\
        startswith "/*" (replace_directive fs path) = true)
  /\ (forall connect DB (run : DB -> string -> DB * (exn + cursor))
             self d cell self1 d1 ev results,
        _snowflake_sql_executor connect run self d (_process_file_directives fs cell)
        = (self1, d1, ev, inr results) ->
        filter (fun x => is_connect x = false) ev
        = map Execute (statements (_process_file_directives fs cell))).
Proof.
  intros Hparts Hlast.
  split; [by apply sub_render|].
  split; [intros path content H; unfold replace_directive; by rewrite H|].
  split.
  { intros H.
    change "FILE('a.json')" with (render [("", ("'"%char, "a.json"))] "").
    rewrite sub_render by done. simpl. rewrite str_app_nil_l, str_app_nil_r.
    unfold replace_directive.
    change (strip "a.json") with "a.json". by rewrite H. }
  split.
  { intros path H. unfold replace_directive. rewrite H.
    split; [|split]; [| |done].
    - apply (contains_middle "FILE NOT FOUND" "/* " (": " +:+ strip path +:+ " */")).
    - apply (contains_middle (strip path) "/* FILE NOT FOUND: " " */"). }
  split.
  { intros path e H. unfold replace_directive. rewrite H. split; [|done].
    rewrite (str_app_assoc "/* ERROR READING FILE " (strip path)).
    rewrite (str_app_assoc _ ": ").
    apply contains_middle. }
  intros connect DB run self d cell self1 d1 ev results.
  apply snowsql_pipeline.
Qed.

(** C5.  After a successful [%snowauth], a second one without any
    parameter reports the error and attempts no connection, but the
    extension stays marked initialized, with its parameters gone. *)
Theorem snowauth_missing_after_success :
  let r := snowauth no_env open_connection no_args authenticated in
  _initialized authenticated = true
  /\ snd r =
      [Print "Initializing new Snowflake connection...";
       Print "Error: Missing connection parameters for initialization. Provide them as arguments or environment variables."]
  /\ _initialized (fst r) = true
  /\ account (fst r) = None
  /\ conn (fst r) = Some {| is_closed := false |}.
Proof.
  cbv zeta. unfold authenticated, snowauth, _initialize_connection.
  repeat split.
Qed.

Lemma file_directives_replaced_witness :
  _process_file_directives demo_fs
    ("SELECT " +:+ directive "'" " a.json " +:+ ", " +:+ directive dquote "b.json" +:+ ";")
  = "SELECT PARSE_JSON($$" +:+ k1_json +:+ "$$), /* FILE NOT FOUND: b.json */;".
Proof.
  destruct (file_directives_replaced demo_fs
              [("SELECT ", ("'"%char, " a.json ")); (", ", (dquote, "b.json"))] ";")
    as [H _]; [reflexivity|reflexivity|].
  exact H.
Defined.

Lemma snowsql_first_failure_witness :
  let r := snowsql demo_fs open_connection demo_run " df " demo_cell demo_session in
  snd r = [Execute demo_insert; Execute "BAD";
           Print "An error occurred: SQL compilation error"; PrintExc sql_error]
  /\ user_ns (fst r) = ∅.
Proof.
  destruct (snowsql_first_failure demo_fs open_connection nat demo_run
              " df " demo_cell demo_session [demo_insert] ["SELECT 1"] "BAD"
              authenticated [] [Execute demo_insert] [Execute "BAD"] 1 2
              [Message "Number of rows inserted: 1"] sql_error)
    as [H _]; [reflexivity..|].
  cbv zeta. rewrite H. split; reflexivity.
Defined.

Lemma snowsql_binds_last_dataframe_witness :
  let r := snowsql demo_fs open_connection demo_run " df "
             "INSERT INTO t VALUES (1); SELECT 1" demo_session in
  user_ns (fst r) = <["df" := PyFrame one_row]> ∅.
Proof.
  destruct (snowsql_binds_last_dataframe demo_fs open_connection nat demo_run
              " df " "INSERT INTO t VALUES (1); SELECT 1" demo_session
              authenticated 2
              [Execute "INSERT INTO t VALUES (1)"; Execute "SELECT 1"]
              [Message "Number of rows inserted: 1"; Frame one_row])
    as [[H _] _]; [reflexivity..|].
  exact H.
Defined.

(** An environment that holds the account and the user only, and a call
    whose account argument is the empty string. *)
Definition partial_env : string -> option string :=
  fun variable =>
    if String.eqb variable "SNOWFLAKE_ACCOUNT" then Some "env-account"
    else if String.eqb variable "SNOWFLAKE_USER" then Some "env-user"
    else None.

Definition some_args : Namespace :=
  {| arg_account := Some ""; arg_user := Some "arg-user"; arg_role := None;
     arg_private_key_path := None; arg_private_key_passphrase := None |}.

Lemma initialize_overwrites_parameters_witness :
  let r := _initialize_connection partial_env open_connection some_args
             authenticated in
  _initialized (fst r) = true
  /\ account (fst r) = Some "env-account"
  /\ user (fst r) = Some "arg-user"
  /\ role (fst r) = None.
Proof.
  destruct (initialize_overwrites_parameters partial_env open_connection
              some_args authenticated) as (Ha & Hu & Hr & _ & _ & H).
  destruct H as (Hi & _).
  { exists None. split; [|by left].
    apply list_elem_of_further, list_elem_of_further, list_elem_of_here. }
  cbv zeta. split; [exact Hi|]. split; [exact Ha|]. split; [exact Hu|exact Hr].
Defined.

End MagicsExamples.

(** ** The notebook converter, [convert_notebook] *)

Module Converter.
Import PyStr.

(** A value as [json.load] builds it.  A dictionary keeps its keys in the
    order in which they were first set, which is the order in which
    [json.dump] writes them. *)
#[local] Set Warnings "-register-all".

Inductive JSON :=
| JNull
| JBool (b : bool)
| JInt (n : Z)
| JFloat (repr : string)
| JStr (s : string)
| JList (items : list JSON)
| JDict (d : list (string * JSON)).

(** The exceptions that the conversion can raise and does not catch. *)
Inductive error :=
| AttributeError
| TypeError
| OtherError (name : string).

(** [d.get(k)] *)
Fixpoint dict_get (k : string) (d : list (string * JSON)) : option JSON :=
  match d with
  | [] => None
  | (k', v) :: d' => if String.eqb k k' then Some v else dict_get k d'
  end.

(** [d[k] = v]: a key that is there keeps its place, a new one goes last. *)
Fixpoint dict_set (k : string) (v : JSON) (d : list (string * JSON))
  : list (string * JSON) :=
  match d with
  | [] => [(k, v)]
  | (k', v') :: d' =>
      if String.eqb k k' then (k, v) :: d' else (k', v') :: dict_set k v d'
  end.

(** [x == s] for a string [s] and what [.get] returned. *)
Definition is_str (s : string) (x : option JSON) : bool :=
  match x with
  | Some (JStr t) => String.eqb s t
  | _ => false
  end.

Definition nl : string := String "010" "".

(** ["\n".join(lines)] *)
Fixpoint join_lines (lines : list string) : string :=
  match lines with
  | [] => ""
  | [l] => l
  | l :: ls => l +:+ nl +:+ join_lines ls
  end.

(** The marker line ["%%snowsql\n"]. *)
Definition marker : string := "%%snowsql" +:+ nl.

Definition markdown_cell (id source : string) : JSON :=
  JDict [("cell_type", JStr "markdown"); ("id", JStr id); ("source", JStr source)].

Definition code_cell (id source : string) : JSON :=
  JDict [("cell_type", JStr "code"); ("id", JStr id);
         ("metadata", JDict [("language", JStr "python")]);
         ("source", JStr source)].

(** [new_cells_at_beginning]; [uuid4 i] is the text of the identifier that
    the call number [i] of [uuid.uuid4()] returns. *)
Definition new_cells_at_beginning (uuid4 : nat -> string) : list JSON :=
  [ markdown_cell (uuid4 0)
      ("# Prepare python environment" +:+ nl +:+
       "Create a python virtual environment and install `ipykernel` package before running the notebook");
    code_cell (uuid4 1)
      ("%%capture pip_install_output" +:+ nl +:+ "%pip install streamlit ipython");
    markdown_cell (uuid4 2)
      "Install snowflake sql magics extension and configure it to connect to your Snowflake account";
    code_cell (uuid4 3)
      (join_lines
         [ "%reload_ext snowflake_sql_magics";
           "SNOWFLAKE_ACCOUNT = '<YOUR SNOWFLAKE ACCOUNT NAME>'";
           "SNOWFLAKE_USER = '<YOUR SNOWFLAKE USER NAME>'";
           "SNOWFLAKE_ROLE = '<SNOWFLAKE ROLE YOU WANT TO USE>'";
           "SNOWFLAKE_PRIVATE_KEY_PATH = '<PATH TO YOUR PRIVATE KEY FILE FOR KEY-PAIR AUTHENTICATION>'";
           "%snowauth --account $SNOWFLAKE_ACCOUNT --user $SNOWFLAKE_USER --role $SNOWFLAKE_ROLE --private_key_path $SNOWFLAKE_PRIVATE_KEY_PATH" ]);
    markdown_cell (uuid4 4) "## Test the connection";
    code_cell (uuid4 5)
      (join_lines
         [ "%%snowsql test_connection";
           "SELECT CURRENT_USER(), CURRENT_ROLE(), CURRENT_VERSION();" ]) ].

(** The body of the loop over the cells.  [cell.get] and [metadata.get]
    raise AttributeError on a value that is no dictionary.  A cell without
    metadata gets a fresh empty dictionary, which has no language; in the
    other case [metadata] is the object held by the cell, so that setting
    its language changes the cell. *)
Definition convert_cell (cell : JSON) : error + JSON :=
  match cell with
  | JDict c =>
      if is_str "code" (dict_get "cell_type" c) then
        match dict_get "metadata" c with
        | None => inr cell
        | Some (JDict metadata) =>
            if is_str "sql" (dict_get "language" metadata) then
              let metadata' := dict_set "language" (JStr "python") metadata in
              let c' := dict_set "metadata" (JDict metadata') c in
              let source :=
                match dict_get "source" c' with
                | Some source => source
                | None => JList []
                end in
              let source' :=
                match source with
                | JStr s => JStr (marker +:+ s)
                | JList lines => JList (JStr marker :: lines)
                | _ => source
                end in
              inr (JDict (dict_set "source" source' c'))
            else inr cell
        | Some _ => inl AttributeError
        end
      else inr cell
  | _ => inl AttributeError
  end.

(** The loop: the cells are changed one after the other, and the first
    exception ends it. *)
Fixpoint convert_cells (cells : list JSON) : error + list JSON :=
  match cells with
  | [] => inr []
  | cell :: rest =>
      match convert_cell cell with
      | inl e => inl e
      | inr cell' =>
          match convert_cells rest with
          | inl e => inl e
          | inr rest' => inr (cell' :: rest')
          end
      end
  end.

(** From the loaded document to the document that is dumped: the
    statements between the two [try] blocks. *)
Definition convert_document (uuid4 : nat -> string) (notebook : JSON)
  : error + JSON :=
  match notebook with
  | JDict nb =>
      let new := new_cells_at_beginning uuid4 in
      (* notebook.setdefault("cells", []) *)
      let '(old, nb1) :=
        match dict_get "cells" nb with
        | Some v => (v, nb)
        | None => (JList [], dict_set "cells" (JList []) nb)
        end in
      match old with
      | JList cells =>
          let nb2 := dict_set "cells" (JList (new ++ cells)) nb1 in
          match dict_get "cells" nb2 with
          | Some (JList all_cells) =>
              match convert_cells all_cells with
              | inl e => inl e
              | inr all_cells' => inr (JDict (dict_set "cells" (JList all_cells') nb2))
              end
          | Some _ => inl TypeError
          | None => inr (JDict nb2)
          end
      | _ => inl TypeError
      end
  | _ => inl AttributeError
  end.

(** What the first [try] block gives: [open] raised FileNotFoundError,
    [json.load] raised JSONDecodeError, one of them raised another
    exception (NotADirectoryError, PermissionError, UnicodeDecodeError and
    the like), or the document was decoded. *)
Inductive load_result :=
| LoadNotFound
| LoadDecodeError
| LoadRaises (e : error)
| Loaded (notebook : JSON).

(** What the second [try] block gives: [json.dump] finished; [open] raised
    an IOError, and the file is as it was; [json.dump] raised an IOError
    after [open] had emptied the file and [text] had been written; or
    another exception was raised, before the file was opened or with [text]
    in the emptied file. *)
Inductive dump_result :=
| Dumped
| OpenIOError (e : string)
| WriteIOError (e : string) (text : string)
| DumpRaises (e : error) (text : option string).

(** The output file after a run: not opened; holding the whole document;
    or opened in mode w, hence emptied, and holding only [text]. *)
Inductive output_file :=
| NotOpened
| Complete (path : string) (doc : JSON)
| Partial (path : string) (text : string).

(** The files and the identifier source of one run: [load] reads and
    decodes a file; [dump] opens a file for writing and writes a document to
    it. *)
Record world := {
  load : string -> load_result;
  dump : string -> JSON -> dump_result;
  uuid4 : nat -> string
}.

(** What one call of [convert_notebook] did: the lines printed, what became
    of the output file, and the exception that left the function, if any. *)
Record run := {
  printed : list string;
  written : output_file;
  raised : option error
}.

Definition convert_notebook (w : world) (input_filename output_filename : string)
  : run :=
  match load w input_filename with
  | LoadNotFound =>
      {| printed := ["Error: Input file not found at " +:+ input_filename];
         written := NotOpened; raised := None |}
  | LoadDecodeError =>
      {| printed := ["Error: Could not decode JSON from " +:+ input_filename];
         written := NotOpened; raised := None |}
  | LoadRaises e => {| printed := []; written := NotOpened; raised := Some e |}
  | Loaded notebook =>
      match convert_document (uuid4 w) notebook with
      | inl e => {| printed := []; written := NotOpened; raised := Some e |}
      | inr notebook' =>
          match dump w output_filename notebook' with
          | Dumped =>
              {| printed := ["Successfully converted " +:+ input_filename
                             +:+ " to " +:+ output_filename];
                 written := Complete output_filename notebook';
                 raised := None |}
          | OpenIOError e =>
              {| printed := ["Error writing to output file " +:+ output_filename
                             +:+ ": " +:+ e];
                 written := NotOpened; raised := None |}
          | WriteIOError e text =>
              {| printed := ["Error writing to output file " +:+ output_filename
                             +:+ ": " +:+ e];
                 written := Partial output_filename text; raised := None |}
          | DumpRaises e None =>
              {| printed := []; written := NotOpened; raised := Some e |}
          | DumpRaises e (Some text) =>
              {| printed := []; written := Partial output_filename text;
                 raised := Some e |}
          end
      end
  end.

(** *** Words of the specification *)

(** The language tag of a cell. *)
Definition language (cell : JSON) : option JSON :=
  match cell with
  | JDict c =>
      match dict_get "metadata" c with
      | Some (JDict metadata) => dict_get "language" metadata
      | _ => None
      end
  | _ => None
  end.

Definition field (k : string) (cell : JSON) : option JSON :=
  match cell with
  | JDict c => dict_get k c
  | _ => None
  end.

(** A code cell with the language tag sql. *)
Definition is_sql_code (cell : JSON) : bool :=
  is_str "code" (field "cell_type" cell) && is_str "sql" (language cell).

(** A cell is a dictionary whose metadata, when there is one, is a
    dictionary. *)
Definition wf_cell (cell : JSON) : bool :=
  match cell with
  | JDict c =>
      match dict_get "metadata" c with
      | None | Some (JDict _) => true
      | Some _ => false
      end
  | _ => false
  end.

(** A notebook document is a dictionary whose key cells holds a list of
    cells. *)
Definition wf_notebook (notebook : JSON) : bool :=
  match notebook with
  | JDict nb =>
      match dict_get "cells" nb with
      | Some (JList cells) => forallb wf_cell cells
      | _ => false
      end
  | _ => false
  end.

(** What the loop makes of a cell on which it does not raise. *)
Definition converted (cell : JSON) : JSON :=
  match convert_cell cell with
  | inr cell' => cell'
  | inl _ => cell
  end.

End Converter.

(** ** Properties of the conversion *)

Module ConverterFacts.
Import PyStr Converter.

Lemma dict_get_set_eq (k : string) (v : JSON) (d : list (string * JSON)) :
  dict_get k (dict_set k v d) = Some v.
Proof.
  induction d as [|[k' v'] d IH]; simpl.
  - by rewrite String.eqb_refl.
  - destruct (String.eqb k k') eqn:E; simpl; [by rewrite String.eqb_refl|].
    by rewrite E.
Qed.

Lemma dict_get_set_ne (k k' : string) (v : JSON) (d : list (string * JSON)) :
  k <> k' -> dict_get k' (dict_set k v d) = dict_get k' d.
Proof.
  intros Hne. induction d as [|[k0 v0] d IH]; simpl.
  - apply String.eqb_neq in Hne. by rewrite String.eqb_sym, Hne.
  - destruct (String.eqb k k0) eqn:E; simpl; [|by rewrite IH].
    apply String.eqb_eq in E as <-.
    assert (String.eqb k' k = false) as -> by (apply String.eqb_neq; congruence).
    done.
Qed.

Lemma dict_set_set (k : string) (v1 v2 : JSON) (d : list (string * JSON)) :
  dict_set k v2 (dict_set k v1 d) = dict_set k v2 d.
Proof.
  induction d as [|[k' v'] d IH]; simpl.
  - by rewrite String.eqb_refl.
  - destruct (String.eqb k k') eqn:E; simpl.
    + by rewrite String.eqb_refl.
    + by rewrite E, IH.
Qed.

Lemma dict_set_id (k : string) (v : JSON) (d : list (string * JSON)) :
  dict_get k d = Some v -> dict_set k v d = d.
Proof.
  induction d as [|[k' v'] d IH]; simpl; [done|].
  destruct (String.eqb k k') eqn:E.
  - apply String.eqb_eq in E as <-. by intros [= ->].
  - intros H. by rewrite IH.
Qed.

(** Setting a key that is there keeps the keys and their order. *)
Lemma dict_set_keys (k : string) (v : JSON) (d : list (string * JSON)) :
  is_Some (dict_get k d) -> map fst (dict_set k v d) = map fst d.
Proof.
  induction d as [|[k' v'] d IH]; simpl; [by intros [? ?]|].
  destruct (String.eqb k k') eqn:E; simpl.
  - by apply String.eqb_eq in E as <-.
  - intros H. by rewrite IH.
Qed.

(** The loop changes exactly the code cells tagged sql. *)
Lemma converted_other (cell : JSON) : is_sql_code cell = false -> converted cell = cell.
Proof.
  unfold converted, is_sql_code, convert_cell, language, field.
  destruct cell as [| | | | | |c]; try done.
  destruct (is_str "code" (dict_get "cell_type" c)); [|done]. simpl.
  destruct (dict_get "metadata" c) as [[| | | | | |m]|]; try done.
  by intros ->.
Qed.

Lemma convert_cell_wf (cell : JSON) :
  wf_cell cell = true -> convert_cell cell = inr (converted cell).
Proof.
  unfold converted, wf_cell, convert_cell.
  destruct cell as [| | | | | |c]; try done.
  destruct (is_str "code" (dict_get "cell_type" c)); [|done].
  destruct (dict_get "metadata" c) as [[| | | | | |m]|]; try done.
  intros _. by destruct (is_str "sql" (dict_get "language" m)).
Qed.

(** What the loop makes of a code cell tagged sql. *)
Lemma converted_sql (c : list (string * JSON)) :
  wf_cell (JDict c) = true -> is_sql_code (JDict c) = true ->
  exists metadata,
    dict_get "metadata" c = Some (JDict metadata) /\
    let c' := dict_set "metadata"
                (JDict (dict_set "language" (JStr "python") metadata)) c in
    converted (JDict c)
    = JDict (dict_set "source"
               match dict_get "source" c with
               | Some (JStr s) => JStr (marker +:+ s)
               | Some (JList lines) => JList (JStr marker :: lines)
               | Some source => source
               | None => JList [JStr marker]
               end c').
Proof.
  unfold converted, is_sql_code, wf_cell, convert_cell, language, field.
  destruct (is_str "code" (dict_get "cell_type" c)); [|done]. simpl.
  destruct (dict_get "metadata" c) as [[| | | | | |m]|]; try done.
  intros _ ->. exists m. split; [done|]. simpl.
  rewrite dict_get_set_ne by done.
  by destruct (dict_get "source" c) as [[]|].
Qed.

Lemma converted_language (cell : JSON) :
  wf_cell cell = true -> is_sql_code cell = true ->
  language (converted cell) = Some (JStr "python").
Proof.
  destruct cell as [| | | | | |c]; try done. intros Hwf Hsql.
  destruct (converted_sql c Hwf Hsql) as (m & Hm & ->).
  unfold language. rewrite dict_get_set_ne, dict_get_set_eq by done.
  apply dict_get_set_eq.
Qed.

Lemma converted_not_sql (cell : JSON) :
  wf_cell cell = true -> is_sql_code (converted cell) = false.
Proof.
  intros Hwf. destruct (is_sql_code cell) eqn:Hsql.
  - unfold is_sql_code. by rewrite converted_language, andb_false_r.
  - by rewrite converted_other.
Qed.

Lemma converted_wf (cell : JSON) :
  wf_cell cell = true -> wf_cell (converted cell) = true.
Proof.
  intros Hwf. destruct (is_sql_code cell) eqn:Hsql; [|by rewrite converted_other].
  destruct cell as [| | | | | |c]; try done.
  destruct (converted_sql c Hwf Hsql) as (m & Hm & ->).
  unfold wf_cell. by rewrite dict_get_set_ne, dict_get_set_eq.
Qed.

Lemma convert_cells_wf (cells : list JSON) :
  forallb wf_cell cells = true -> convert_cells cells = inr (map converted cells).
Proof.
  induction cells as [|cell cells IH]; [done|]. simpl.
  intros H. apply andb_true_iff in H as [Hc Hcs].
  by rewrite convert_cell_wf, IH.
Qed.

Lemma convert_cells_app (xs ys xs' ys' : list JSON) :
  convert_cells xs = inr xs' -> convert_cells ys = inr ys' ->
  convert_cells (xs ++ ys) = inr (xs' ++ ys').
Proof.
  revert xs'. induction xs as [|x xs IH]; intros xs'; simpl.
  - by intros [= <-].
  - destruct (convert_cell x) as [e|x']; [done|].
    destruct (convert_cells xs) as [e|xs1]; [done|].
    intros [= <-] Hys. by rewrite (IH xs1).
Qed.

(** The cells that the converter adds go through the loop untouched. *)
Lemma convert_new_cells (uuid4 : nat -> string) :
  convert_cells (new_cells_at_beginning uuid4) = inr (new_cells_at_beginning uuid4).
Proof. reflexivity. Qed.

Lemma new_cells_wf (uuid4 : nat -> string) :
  forallb wf_cell (new_cells_at_beginning uuid4) = true.
Proof. reflexivity. Qed.

Lemma new_cells_not_sql (uuid4 : nat -> string) :
  forallb (fun c => negb (is_sql_code c)) (new_cells_at_beginning uuid4) = true.
Proof. reflexivity. Qed.

(** The document that is dumped for a well-formed notebook. *)
Lemma convert_document_wf (uuid4 : nat -> string) (nb : list (string * JSON))
    (cells : list JSON) :
  dict_get "cells" nb = Some (JList cells) ->
  forallb wf_cell cells = true ->
  convert_document uuid4 (JDict nb)
  = inr (JDict (dict_set "cells"
                  (JList (new_cells_at_beginning uuid4 ++ map converted cells)) nb)).
Proof.
  intros Hcells Hwf. unfold convert_document. rewrite Hcells, dict_get_set_eq.
  rewrite (convert_cells_app _ _ _ _ (convert_new_cells uuid4) (convert_cells_wf _ Hwf)).
  by rewrite dict_set_set.
Qed.

Lemma lookup_map_converted (cells : list JSON) (i : nat) (cell : JSON) :
  cells !! i = Some cell -> map converted cells !! i = Some (converted cell).
Proof.
  revert i. induction cells as [|c cells IH]; intros [|i]; simpl; try done.
  - by intros [= ->].
  - apply IH.
Qed.

Lemma forallb_converted (P : JSON -> bool) (cells : list JSON) :
  (forall cell, wf_cell cell = true -> P (converted cell) = true) ->
  forallb wf_cell cells = true -> forallb P (map converted cells) = true.
Proof.
  intros HP. induction cells as [|c cells IH]; [done|]. simpl.
  intros H. apply andb_true_iff in H as [Hc Hcs]. by rewrite HP, IH.
Qed.

(** A cell tagged python is left as it is. *)
Lemma convert_cell_python (cell : JSON) :
  language cell = Some (JStr "python") -> convert_cell cell = inr cell.
Proof.
  intros Hl.
  assert (wf_cell cell = true) as Hwf.
  { unfold language, wf_cell in *. destruct cell as [| | | | | |c]; try done.
    by destruct (dict_get "metadata" c) as [[]|]. }
  rewrite convert_cell_wf by done. f_equal. apply converted_other.
  unfold is_sql_code. by rewrite Hl, andb_false_r.
Qed.

(** C4.  Every code cell tagged sql comes out tagged python with the
    marker line, the text %%snowsql and a line feed (character 10), in
    front of its source: joined to a source that is one string, inserted as
    the first line of a source that is a list of lines.  No code cell of
    the output is tagged sql. *)
Theorem sql_cells_converted (uuid4 : nat -> string) (nb : list (string * JSON))
    (cells : list JSON) :
  dict_get "cells" nb = Some (JList cells) ->
  forallb wf_cell cells = true ->
  exists nb' cells',
    convert_document uuid4 (JDict nb) = inr (JDict nb')
    /\ dict_get "cells" nb' = Some (JList (new_cells_at_beginning uuid4 ++ cells'))
    /\ length cells' = length cells
    /\ (forall i cell, cells !! i = Some cell -> is_sql_code cell = true ->
          exists cell', cells' !! i = Some cell'
            /\ language cell' = Some (JStr "python")
            /\ (forall s, field "source" cell = Some (JStr s) ->
                  field "source" cell'
                  = Some (JStr ("%%snowsql" +:+ String "010" s)))
            /\ (forall lines, field "source" cell = Some (JList lines) ->
                  field "source" cell'
                  = Some (JList (JStr ("%%snowsql" +:+ String "010" "")
                                 :: lines))))
    /\ forallb (fun cell' => negb (is_sql_code cell'))
               (new_cells_at_beginning uuid4 ++ cells') = true.
Proof.
  intros Hcells Hwf. eexists _, (map converted cells). repeat split.
  - by apply convert_document_wf.
  - apply dict_get_set_eq.
  - apply length_map.
  - intros i cell Hi Hsql. exists (converted cell).
    assert (wf_cell cell = true) as Hc.
    { rewrite forallb_forall in Hwf. apply Hwf. apply list_elem_of_In.
      by eapply list_elem_of_lookup_2. }
    split; [by apply lookup_map_converted|].
    split; [by apply converted_language|].
    destruct cell as [| | | | | |c]; try done.
    destruct (converted_sql c Hc Hsql) as (m & Hm & ->). simpl.
    split; intros ? Hs; by rewrite dict_get_set_eq, Hs.
  - rewrite forallb_app, new_cells_not_sql. simpl.
    apply forallb_converted; [|done].
    intros cell Hc. by rewrite converted_not_sql.
Qed.

(** C7, as amended.  The output is the input with the six added cells in
    front of the cells; the top-level keys keep their order and, but for
    the cells, their values; a cell that is no code cell tagged sql is the
    same at its new place; a code cell tagged sql keeps every field other
    than metadata and source, and its metadata keeps every key other than
    language. *)
Theorem convert_document_frame (uuid4 : nat -> string)
    (nb : list (string * JSON)) (cells : list JSON) :
  dict_get "cells" nb = Some (JList cells) ->
  forallb wf_cell cells = true ->
  exists nb' cells',
    convert_document uuid4 (JDict nb) = inr (JDict nb')
    /\ dict_get "cells" nb' = Some (JList (new_cells_at_beginning uuid4 ++ cells'))
    /\ length (new_cells_at_beginning uuid4) = 6
    /\ length cells' = length cells
    /\ map fst nb' = map fst nb
    /\ (forall k, k <> "cells" -> dict_get k nb' = dict_get k nb)
    /\ (forall i cell, cells !! i = Some cell ->
          exists cell',
            (new_cells_at_beginning uuid4 ++ cells') !! (6 + i) = Some cell'
            /\ (is_sql_code cell = false -> cell' = cell)
            /\ (forall k, k <> "metadata" -> k <> "source" ->
                  field k cell' = field k cell)
            /\ (forall k m m', k <> "language" ->
                  field "metadata" cell = Some (JDict m) ->
                  field "metadata" cell' = Some (JDict m') ->
                  dict_get k m' = dict_get k m)).
Proof.
  intros Hcells Hwf. eexists _, (map converted cells).
  split; [by apply convert_document_wf|].
  split; [apply dict_get_set_eq|].
  split; [done|].
  split; [apply length_map|].
  split; [apply dict_set_keys; by rewrite Hcells|].
  split; [intros k Hk; by apply dict_get_set_ne|].
  intros i cell Hi. exists (converted cell).
  assert (wf_cell cell = true) as Hc.
  { rewrite forallb_forall in Hwf. apply Hwf. apply list_elem_of_In.
    by eapply list_elem_of_lookup_2. }
  split.
  { rewrite lookup_app_r by (simpl; lia).
    replace (6 + i - length (new_cells_at_beginning uuid4)) with i by (simpl; lia).
    by apply lookup_map_converted. }
  split; [apply converted_other|].
  destruct (is_sql_code cell) eqn:Hsql;
    [|rewrite converted_other by done; split; [done|]; intros; congruence].
  destruct cell as [| | | | | |c]; try done.
  destruct (converted_sql c Hc Hsql) as (m & Hm & ->). simpl. split.
  - intros k Hk1 Hk2. by rewrite !dict_get_set_ne.
  - intros k m0 m' Hk. rewrite Hm, dict_get_set_ne, dict_get_set_eq by done.
    intros [= <-] [= <-]. by apply dict_get_set_ne.
Qed.

(** C7 as the specification words it does not hold: there is no list of
    five cells that the converter puts in front of the cells, not even for
    a notebook without cells. *)
Lemma convert_prepends_six_not_five :
  ~ exists five,
      length five = 5 /\
      convert_document (fun _ => "id") (JDict [("cells", JList [])])
      = inr (JDict [("cells", JList (five ++ []))]).
Proof.
  intros (five & Hlen & H). rewrite (right_id_L [] (++)) in H.
  rewrite (convert_document_wf _ _ []) in H by done.
  injection H as H. rewrite <- H in Hlen. discriminate Hlen.
Qed.

(** C9.  The converter run on its own output changes none of the cells of
    that output, which all follow the six cells added by the second run;
    in general a cell tagged python is left as it is. *)
Theorem convert_twice (u1 u2 : nat -> string) (nb : list (string * JSON))
    (cells : list JSON) :
  dict_get "cells" nb = Some (JList cells) ->
  forallb wf_cell cells = true ->
  exists nb1 cells1 nb2,
    convert_document u1 (JDict nb) = inr (JDict nb1)
    /\ dict_get "cells" nb1 = Some (JList cells1)
    /\ convert_document u2 (JDict nb1) = inr (JDict nb2)
    /\ dict_get "cells" nb2 = Some (JList (new_cells_at_beginning u2 ++ cells1))
    /\ (forall cell, language cell = Some (JStr "python") ->
          convert_cell cell = inr cell).
Proof.
  intros Hcells Hwf.
  set (cells1 := new_cells_at_beginning u1 ++ map converted cells).
  assert (forallb wf_cell cells1 = true) as Hwf1.
  { unfold cells1. rewrite forallb_app, new_cells_wf. simpl.
    apply forallb_converted; [|done]. apply converted_wf. }
  assert (map converted cells1 = cells1) as Hid.
  { assert (forallb (fun c => negb (is_sql_code c)) cells1 = true) as Hn.
    { unfold cells1. rewrite forallb_app, new_cells_not_sql. simpl.
      apply forallb_converted; [|done]. intros c Hc. by rewrite converted_not_sql. }
    clear -Hn. induction cells1 as [|c l IH]; [done|]. simpl in *.
    apply andb_true_iff in Hn as [Hc Hl]. apply negb_true_iff in Hc.
    by rewrite converted_other, IH. }
  exists (dict_set "cells" (JList cells1) nb), cells1,
    (dict_set "cells" (JList (new_cells_at_beginning u2 ++ cells1))
       (dict_set "cells" (JList cells1) nb)).
  split; [by apply convert_document_wf|].
  split; [apply dict_get_set_eq|].
  split.
  { rewrite (convert_document_wf u2 _ cells1); [|apply dict_get_set_eq|done].
    by rewrite Hid. }
  split; [apply dict_get_set_eq|].
  apply convert_cell_python.
Qed.

(** A world whose input file holds the JSON text of an empty list. *)
Definition list_world : world :=
  {| load := fun _ => Loaded (JList []);
     dump := fun _ _ => Dumped;
     uuid4 := fun _ => "id" |}.

(** C8 as the specification words it does not hold: a document that
    decodes but is no notebook makes the converter raise. *)
Lemma convert_notebook_raises :
  wf_notebook (JList []) = false /\
  raised (convert_notebook list_world "in.ipynb" "out.ipynb") = Some AttributeError /\
  printed (convert_notebook list_world "in.ipynb" "out.ipynb") = [].
Proof. by repeat split. Qed.

(** C8, as amended.  When opening the input raises FileNotFoundError, or
    decoding it raises JSONDecodeError, that is reported in one line, the
    output file is not opened and no exception leaves the function.  Every
    other exception of the first [try] block, and every exception of the
    conversion, leaves the function, with nothing printed and the output
    file not opened.  An IOError of the second [try] block, raised by
    [open] or by [json.dump], is reported in one line and does not leave the
    function; the whole document is not in the output file then. *)
Theorem convert_notebook_errors (w : world) (input_filename output_filename : string) :
  let r := convert_notebook w input_filename output_filename in
  (load w input_filename = LoadNotFound ->
     printed r = ["Error: Input file not found at " +:+ input_filename]
     /\ written r = NotOpened /\ raised r = None)
  /\ (load w input_filename = LoadDecodeError ->
     printed r = ["Error: Could not decode JSON from " +:+ input_filename]
     /\ written r = NotOpened /\ raised r = None)
  /\ (forall e, load w input_filename = LoadRaises e ->
     printed r = [] /\ written r = NotOpened /\ raised r = Some e)
  /\ (forall notebook e,
       load w input_filename = Loaded notebook ->
       convert_document (uuid4 w) notebook = inl e ->
       printed r = [] /\ written r = NotOpened /\ raised r = Some e)
  /\ (forall notebook notebook' e,
       load w input_filename = Loaded notebook ->
       convert_document (uuid4 w) notebook = inr notebook' ->
       (dump w output_filename notebook' = OpenIOError e \/
        exists text, dump w output_filename notebook' = WriteIOError e text) ->
       printed r = ["Error writing to output file " +:+ output_filename
                    +:+ ": " +:+ e]
       /\ raised r = None
       /\ forall doc, written r <> Complete output_filename doc).
Proof.
  intros r. unfold r, convert_notebook. split; [|split; [|split; [|split]]].
  - by intros ->.
  - by intros ->.
  - by intros e ->.
  - by intros notebook e -> ->.
  - intros notebook notebook' e -> -> [-> | [text ->]]; by repeat split.
Qed.

End ConverterFacts.

(** ** The converter on a small notebook *)

Module ConverterExamples.
Import PyStr Converter ConverterFacts.

Definition demo_ids : nat -> string := fun _ => "id".

(** A code cell tagged sql whose source is one string, one whose source
    is a list of lines, and a markdown cell. *)
Definition demo_cells : list JSON :=
  [ JDict [("cell_type", JStr "code");
           ("metadata", JDict [("language", JStr "sql"); ("name", JStr "c1")]);
           ("source", JStr "select 1")];
    JDict [("cell_type", JStr "code");
           ("source", JList [JStr "select 1"]);
           ("metadata", JDict [("name", JStr "c2"); ("language", JStr "sql")])];
    JDict [("cell_type", JStr "markdown"); ("source", JStr "# Title")] ].

Definition demo_notebook : list (string * JSON) :=
  [("metadata", JDict []); ("cells", JList demo_cells); ("nbformat", JInt 4)].

(** A world without the input file, one whose output cannot be opened,
    one whose disk is full after the first brace of the output, and one
    whose input is no UTF-8 text. *)
Definition empty_world : world :=
  {| load := fun _ => LoadNotFound; dump := fun _ _ => Dumped; uuid4 := demo_ids |}.

Definition read_only_world : world :=
  {| load := fun _ => Loaded (JDict demo_notebook);
     dump := fun _ _ => OpenIOError "[Errno 13] Permission denied: 'out.ipynb'";
     uuid4 := demo_ids |}.

Definition full_disk_world : world :=
  {| load := fun _ => Loaded (JDict demo_notebook);
     dump := fun _ _ => WriteIOError "[Errno 28] No space left on device" "{";
     uuid4 := demo_ids |}.

Definition binary_world : world :=
  {| load := fun _ => LoadRaises (OtherError "UnicodeDecodeError");
     dump := fun _ _ => Dumped; uuid4 := demo_ids |}.

Lemma sql_cells_converted_witness :
  exists cells',
    length cells' = 3 /\
    cells' !! 0 =
      Some (JDict [("cell_type", JStr "code");
                   ("metadata", JDict [("language", JStr "python"); ("name", JStr "c1")]);
                   ("source", JStr ("%%snowsql" +:+ String "010" "select 1"))])
    /\ cells' !! 1 =
      Some (JDict [("cell_type", JStr "code");
                   ("source", JList [JStr ("%%snowsql" +:+ String "010" "");
                                     JStr "select 1"]);
                   ("metadata", JDict [("name", JStr "c2"); ("language", JStr "python")])]).
Proof.
  destruct (sql_cells_converted demo_ids demo_notebook demo_cells)
    as (nb' & cells' & Hdoc & Hcells & Hlen & Hsql & Hnone); [reflexivity..|].
  exists cells'. split; [exact Hlen|].
  rewrite (convert_document_wf demo_ids demo_notebook demo_cells) in Hdoc
    by reflexivity.
  injection Hdoc as <-. simpl in Hcells. injection Hcells as <-.
  split; reflexivity.
Defined.

Lemma convert_document_frame_witness :
  exists nb', convert_document demo_ids (JDict demo_notebook) = inr (JDict nb')
              /\ map fst nb' = ["metadata"; "cells"; "nbformat"].
Proof.
  destruct (convert_document_frame demo_ids demo_notebook demo_cells)
    as (nb' & cells' & Hdoc & _ & _ & _ & Hkeys & _); [reflexivity..|].
  exists nb'. split; [exact Hdoc|exact Hkeys].
Defined.

Lemma convert_twice_witness :
  exists nb1 nb2,
    convert_document demo_ids (JDict demo_notebook) = inr (JDict nb1) /\
    convert_document demo_ids (JDict nb1) = inr (JDict nb2).
Proof.
  destruct (convert_twice demo_ids demo_ids demo_notebook demo_cells)
    as (nb1 & cells1 & nb2 & H1 & _ & H2 & _); [reflexivity..|].
  exists nb1, nb2. split; [exact H1|exact H2].
Defined.

Lemma convert_notebook_errors_witness :
  printed (convert_notebook empty_world "in.ipynb" "out.ipynb")
  = ["Error: Input file not found at in.ipynb"]
  /\ printed (convert_notebook full_disk_world "in.ipynb" "out.ipynb")
     = ["Error writing to output file out.ipynb: [Errno 28] No space left on device"]
  /\ raised (convert_notebook binary_world "in.ipynb" "out.ipynb")
     = Some (OtherError "UnicodeDecodeError").
Proof.
  destruct (convert_notebook_errors empty_world "in.ipynb" "out.ipynb")
    as (Hmissing & _).
  destruct (convert_notebook_errors full_disk_world "in.ipynb" "out.ipynb")
    as (_ & _ & _ & _ & Hwrite).
  destruct (convert_notebook_errors binary_world "in.ipynb" "out.ipynb")
    as (_ & _ & Hother & _).
  destruct (Hmissing eq_refl) as (H1 & _).
  destruct (Hwrite _ _ "[Errno 28] No space left on device" eq_refl eq_refl
              (or_intror (ex_intro _ "{" eq_refl))) as (H2 & _).
  destruct (Hother _ eq_refl) as (_ & _ & H3).
  split; [exact H1|split; [exact H2|exact H3]].
Defined.

End ConverterExamples.

(** ** More on the statement splitter *)

Module SplitterProps.
Import PyStr Regex RegexFacts Splitter SplitterFacts.

(** [";".join(pieces)] *)
Fixpoint join_semicolon (pieces : list string) : string :=
  match pieces with
  | [] => ""
  | [p] => p
  | p :: ps => p +:+ String semicolon (join_semicolon ps)
  end.

(** Every character of [s] satisfies [p]. *)
Fixpoint all_chars (p : ascii -> bool) (s : string) : bool :=
  match s with
  | EmptyString => true
  | String c s' => p c && all_chars p s'
  end.

(** A text of white space and semicolons only. *)
Definition blank (s : string) : bool :=
  all_chars (fun c => isspace c || Ascii.eqb c semicolon) s.

(** The first character of [s], if any, is no white space. *)
Definition head_ok (s : string) : Prop :=
  match s with
  | EmptyString => True
  | String c _ => isspace c = false
  end.

Lemma re_split_cons (s : string) : exists piece pieces, re_split s = piece :: pieces.
Proof.
  destruct s as [|c s]; simpl; [by eexists _, _|].
  destruct (Ascii.eqb c semicolon && lookahead s); [by eexists _, _|].
  destruct (re_split s); by eexists _, _.
Qed.

Lemma join_cons (p q : string) (ps : list string) :
  join_semicolon (p :: q :: ps) = p +:+ String semicolon (join_semicolon (q :: ps)).
Proof. reflexivity. Qed.

Lemma join_head (c : ascii) (p : string) (ps : list string) :
  join_semicolon (String c p :: ps) = String c (join_semicolon (p :: ps)).
Proof. by destruct ps. Qed.

(** X1.  Nothing but the separating semicolons is lost by the split: the
    pieces joined by semicolons are the text. *)
Theorem re_split_join (s : string) : join_semicolon (re_split s) = s.
Proof.
  induction s as [|c s IH]; [done|]. cbn [re_split].
  destruct (re_split_cons s) as (piece & pieces & E). rewrite E in *.
  destruct (Ascii.eqb c semicolon && lookahead s) eqn:Hc.
  - apply andb_true_iff in Hc as [Hc _]. apply Ascii.eqb_eq in Hc as ->.
    by rewrite join_cons, IH.
  - by rewrite join_head, IH.
Qed.

(** X2.  The pattern splits at a semicolon exactly when every quote of the
    text behind it is closed: then the text behind it is split on its own
    and an empty piece stands in front, otherwise the semicolon stays in
    the first piece. *)
Theorem split_point_closed_quotes (rest : string) :
  (scan Outside rest = Outside <->
   re_split (String semicolon rest) = "" :: re_split rest)
  /\ (scan Outside rest <> Outside <->
      exists piece pieces,
        re_split rest = piece :: pieces /\
        re_split (String semicolon rest) = String semicolon piece :: pieces).
Proof.
  cbn [re_split]. destruct (re_split_cons rest) as (piece & pieces & E). rewrite E.
  rewrite Ascii.eqb_refl, andb_true_l.
  destruct (lookahead rest) eqn:Hl.
  - apply lookahead_balanced in Hl. split; [done|].
    split; [done|]. by intros (p & ps & _ & [=]).
  - assert (scan Outside rest <> Outside) as Hn.
    { intros H. apply lookahead_balanced in H. congruence. }
    split; [by split|]. split; [|done]. intros _. by exists piece, pieces.
Qed.

Lemma lstrip_head_ok (s : string) : head_ok (lstrip s).
Proof.
  induction s as [|c s IH]; [done|]. simpl.
  destruct (isspace c) eqn:Hc; [done|]. simpl. exact Hc.
Qed.

Lemma lstrip_id (s : string) : head_ok s -> lstrip s = s.
Proof. destruct s as [|c s]; [done|]. simpl. by intros ->. Qed.

Lemma rstrip_head_ok (s : string) : head_ok s -> head_ok (rstrip s).
Proof.
  destruct s as [|c s]; [done|]. simpl. intros Hc.
  by destruct (isspace c && is_empty (rstrip s)).
Qed.

Lemma rstrip_idem (s : string) : rstrip (rstrip s) = rstrip s.
Proof.
  induction s as [|c s IH]; [done|]. simpl.
  destruct (isspace c && is_empty (rstrip s)) eqn:E; [done|].
  simpl. by rewrite IH, E.
Qed.

Lemma strip_idem (s : string) : strip (strip s) = strip s.
Proof.
  unfold strip.
  rewrite (lstrip_id (rstrip (lstrip s))) by apply rstrip_head_ok, lstrip_head_ok.
  apply rstrip_idem.
Qed.

Lemma take_token_nonempty (s : string) :
  head_ok s -> s <> "" -> take_token s <> "".
Proof. destruct s as [|c s]; [done|]. simpl. by intros ->. Qed.

(** X4.  No statement is empty or has white space around it, and each has a
    first token: the index 0 of the split of a statement always exists. *)
Theorem statements_stripped (sql_query statement : string) :
  statement ∈ statements sql_query ->
  statement <> "" /\ strip statement = statement
  /\ first_token (strip statement) <> "".
Proof.
  unfold statements, strip_nonempty. intros Hin.
  apply list_elem_of_fmap in Hin as (piece & -> & Hin).
  apply list_elem_of_filter in Hin as [Hne _].
  assert (strip piece <> "") as Hne' by (by destruct (strip piece)).
  split; [done|]. split; [apply strip_idem|].
  rewrite strip_idem. unfold first_token.
  assert (head_ok (strip piece)) as Hh by apply rstrip_head_ok, lstrip_head_ok.
  rewrite lstrip_id by done. by apply take_token_nonempty.
Qed.

Lemma blank_scan (s : string) : blank s = true -> forall q, scan q s = q.
Proof.
  induction s as [|c s IH]; [done|]. unfold blank. simpl.
  intros H q. apply andb_true_iff in H as [Hc Hs].
  rewrite step_other; [by apply IH| |].
  - intros ->. discriminate Hc.
  - intros ->. discriminate Hc.
Qed.

Lemma blank_pieces (s : string) :
  blank s = true -> Forall (fun p => all_chars isspace p = true) (re_split s).
Proof.
  induction s as [|c s IH]; [by repeat constructor|]. unfold blank. simpl.
  intros H. apply andb_true_iff in H as [Hc Hs]. specialize (IH Hs).
  assert (lookahead s = true) as -> by (by apply lookahead_balanced, blank_scan).
  destruct (Ascii.eqb c semicolon) eqn:E; simpl; [by constructor|].
  rewrite orb_false_r in Hc.
  destruct (re_split s) as [|piece pieces];
    [constructor; [simpl; by rewrite Hc|done]|].
  inversion IH; subst. constructor; [|done]. simpl. by rewrite Hc.
Qed.

Lemma strip_spaces (s : string) : all_chars isspace s = true -> strip s = "".
Proof.
  unfold strip. induction s as [|c s IH]; [done|]. simpl.
  intros H. apply andb_true_iff in H as [-> Hs]. by apply IH.
Qed.

(** A cell of white space and semicolons only holds no statement. *)
Lemma statements_blank (sql_query : string) :
  blank sql_query = true -> statements sql_query = [].
Proof.
  intros H. unfold statements, strip_nonempty.
  pose proof (blank_pieces _ H) as Hp.
  induction Hp as [|p ps Hp _ IH]; [done|].
  rewrite filter_cons. case_decide as Hd; [|exact IH].
  simpl in Hd. by rewrite (strip_spaces p Hp) in Hd.
Qed.

Lemma statements_balanced_witness :
  statements "SELECT 'a;b' AS x; SELECT 2" = ["SELECT 'a;b' AS x"; "SELECT 2"].
Proof.
  rewrite (statements_balanced "SELECT 'a;b' AS x; SELECT 2"); reflexivity.
Defined.

Lemma statements_stripped_witness :
  first_token (strip "SELECT 2") <> "".
Proof.
  apply (statements_stripped "SELECT 1 ; SELECT 2 ;" "SELECT 2").
  vm_compute. apply list_elem_of_further, list_elem_of_here.
Defined.

End SplitterProps.

(** ** More on the file directives *)

Module FileDirectivesProps.
Import PyStr Splitter FileDirectives FileDirectivesFacts.

#[local] Arguments Ascii.eqb : simpl never.

(** The first character of [rest], if any, is none of the letters by
    which the opening of a directive goes on after its F. *)
Definition no_opening_tail (rest : string) : Prop :=
  match rest with
  | EmptyString => True
  | String r _ =>
      Ascii.eqb "I" r = false /\ Ascii.eqb "L" r = false /\
      Ascii.eqb "E" r = false /\ Ascii.eqb "(" r = false
  end.

Lemma startswith_plain_tail (c : ascii) (t rest : string) :
  startswith "FILE(" (String c t) = false ->
  no_opening_tail rest ->
  startswith "FILE(" (String c t +:+ rest) = false.
Proof.
  intros Ht Hr. destruct rest as [|r rest]; [by rewrite str_app_nil_r|].
  destruct Hr as (HI & HL & HE & HP).
  rewrite str_app_cons.
  destruct t as [|c2 [|c3 [|c4 [|c5 t]]]]; rewrite ?str_app_cons, ?str_app_nil_l;
    rewrite ?startswith_cons in *; rewrite ?HI, ?HL, ?HE, ?HP;
    rewrite ?andb_false_l, ?andb_false_r; try done.
Qed.

Lemma sub_plain_tail (fs : filesystem) (t rest : string) :
  plain t = true -> no_opening_tail rest ->
  sub fs 0 (t +:+ rest) = t +:+ sub fs 0 rest.
Proof.
  unfold plain. rewrite negb_true_iff. intros Ht Hr.
  induction t as [|c t IH]; [done|].
  assert (pattern (String c t +:+ rest) = None) as Hp.
  { unfold pattern. rewrite drop_prefix_none; [done|].
    apply startswith_plain_tail; [by apply startswith_contains|done]. }
  rewrite str_app_cons in *. cbn [sub]. rewrite Hp, IH; [done|].
  by eapply contains_tail.
Qed.

Lemma sub_no_match (fs : filesystem) (c : ascii) (s : string) :
  pattern (String c s) = None -> sub fs 0 (String c s) = String c (sub fs 0 s).
Proof. intros H. cbn [sub]. by rewrite H. Qed.

(** X5.  A text without the opening of a directive comes back as it is,
    whatever the files hold. *)
Theorem plain_text_unchanged (fs : filesystem) (sql_query : string) :
  plain sql_query = true -> _process_file_directives fs sql_query = sql_query.
Proof.
  intros H. unfold _process_file_directives.
  rewrite <- (str_app_nil_r sql_query) at 1.
  rewrite sub_plain_tail by done. simpl. apply str_app_nil_r.
Qed.

Lemma is_quote_not_newline (q : ascii) :
  is_quote q = true -> Ascii.eqb newline q = false.
Proof.
  unfold is_quote. intros H. apply orb_true_iff in H as [H|H];
    apply Ascii.eqb_eq in H as ->; reflexivity.
Qed.

Lemma is_quote_not_letter (q : ascii) :
  is_quote q = true -> Ascii.eqb "F" q = false.
Proof.
  unfold is_quote. intros H. apply orb_true_iff in H as [H|H];
    apply Ascii.eqb_eq in H as ->; reflexivity.
Qed.

(** The lazy group finds no end when the text stops, or a line feed comes,
    before a quote that a parenthesis follows. *)
Lemma lazy_path_none (q : ascii) (path rest : string) :
  is_quote q = true ->
  contains (String q ")") path = false ->
  rest = "" \/ startswith (String newline "") rest = true ->
  lazy_path q (path +:+ rest) = None.
Proof.
  intros Hq Hcl Hrest. induction path as [|c path IH].
  - rewrite str_app_nil_l. destruct Hrest as [->|Hr]; [done|].
    destruct rest as [|r rest]; [done|].
    rewrite startswith_cons, andb_true_r in Hr. apply Ascii.eqb_eq in Hr as <-.
    cbn [lazy_path]. rewrite (is_quote_not_newline q Hq), andb_false_l.
    by rewrite Ascii.eqb_refl.
  - rewrite str_app_cons. cbn [lazy_path].
    pose proof (startswith_contains _ _ Hcl) as Hcl0.
    rewrite startswith_cons in Hcl0.
    rewrite IH by (by eapply contains_tail).
    assert (Ascii.eqb c q && startswith ")" (path +:+ rest) = false) as ->.
    { rewrite (Ascii.eqb_sym c q). destruct (Ascii.eqb q c); [|done].
      rewrite andb_true_l in *.
      destruct path as [|d path]; [|by rewrite str_app_cons, startswith_cons in *].
      rewrite str_app_nil_l. destruct Hrest as [->|Hr]; [done|].
      destruct rest as [|r rest]; [done|].
      rewrite startswith_cons, andb_true_r in Hr. apply Ascii.eqb_eq in Hr as <-.
      by rewrite startswith_cons. }
    by destruct (Ascii.eqb c newline).
Qed.

Lemma unclosed_directive_plain (fs : filesystem) (q : ascii) (path rest : string) :
  is_quote q = true ->
  plain path = true ->
  contains (String q ")") path = false ->
  rest = "" \/ startswith (String newline "") rest = true ->
  _process_file_directives fs ("FILE(" +:+ String q (path +:+ rest))
  = "FILE(" +:+ String q path +:+ _process_file_directives fs rest.
Proof.
  intros Hq Hplain Hcl Hrest. unfold _process_file_directives.
  assert (pattern ("FILE(" +:+ String q (path +:+ rest)) = None) as Hp.
  { unfold pattern. rewrite !str_app_cons, str_app_nil_l. cbn [drop_prefix].
    rewrite !Ascii.eqb_refl, Hq. by rewrite lazy_path_none. }
  rewrite !str_app_cons, !str_app_nil_l in *. rewrite (sub_no_match _ _ _ Hp).
  f_equal.
  assert (plain ("ILE(" +:+ String q path) = true) as Ht.
  { unfold plain in *. rewrite negb_true_iff in *.
    rewrite !str_app_cons, str_app_nil_l. cbn [contains].
    rewrite Hplain, !startswith_cons, (is_quote_not_letter q Hq).
    destruct path; reflexivity. }
  assert (no_opening_tail rest) as Hr.
  { destruct Hrest as [->|Hr]; [done|]. destruct rest as [|r rest]; [done|].
    rewrite startswith_cons, andb_true_r in Hr. apply Ascii.eqb_eq in Hr as <-.
    by repeat split. }
  pose proof (sub_plain_tail fs _ rest Ht Hr) as H.
  rewrite <- str_app_assoc, !str_app_cons, !str_app_nil_l in H.
  by rewrite H.
Qed.

(** X6.  The opening of a directive whose path is not closed, by the same
    quote and a parenthesis, before the next line feed or the end of the
    text opens no directive: the opening and its quote are kept and the
    transform goes on right behind them, so that a directive further on,
    even inside the unclosed path, is still replaced.  When the unclosed
    path holds no further opening, the text up to the line feed, or to the
    end, is kept as it is. *)
Theorem unclosed_directive_kept (fs : filesystem) (q : ascii) (path rest : string) :
  is_quote q = true ->
  contains (String q ")") path = false ->
  rest = "" \/ startswith (String newline "") rest = true ->
  _process_file_directives fs ("FILE(" +:+ String q (path +:+ rest))
  = "FILE(" +:+ String q (_process_file_directives fs (path +:+ rest))
  /\ (contains "FILE(" path = false ->
      _process_file_directives fs ("FILE(" +:+ String q (path +:+ rest))
      = "FILE(" +:+ String q path +:+ _process_file_directives fs rest).
Proof.
  intros Hq Hcl Hrest. split.
  - unfold _process_file_directives.
    assert (pattern ("FILE(" +:+ String q (path +:+ rest)) = None) as Hp.
    { unfold pattern. rewrite !str_app_cons, str_app_nil_l. cbn [drop_prefix].
      rewrite !Ascii.eqb_refl, Hq. by rewrite lazy_path_none. }
    rewrite !str_app_cons, !str_app_nil_l in *. rewrite (sub_no_match _ _ _ Hp).
    do 4 (rewrite sub_no_match by reflexivity).
    rewrite sub_no_match; [done|].
    unfold pattern. cbn [drop_prefix]. by rewrite (is_quote_not_letter q Hq).
  - intros Hplain. apply unclosed_directive_plain; try done.
    unfold plain. by rewrite Hplain.
Qed.

Lemma plain_text_unchanged_witness :
  _process_file_directives (fun _ => FileNotFoundError) "SELECT PROFILE FROM t"
  = "SELECT PROFILE FROM t".
Proof. apply plain_text_unchanged. reflexivity. Defined.

Lemma unclosed_directive_kept_witness :
  _process_file_directives (fun _ => ReadOk "{}")
    ("FILE('x, FILE(" +:+ String dquote ("a.json" +:+ String dquote ")"))
  = "FILE('x, PARSE_JSON($${}$$)".
Proof.
  destruct (unclosed_directive_kept (fun _ => ReadOk "{}") "'"
              ("x, FILE(" +:+ String dquote ("a.json" +:+ String dquote ")")) "")
    as [H _]; [reflexivity|reflexivity|by left|].
  rewrite str_app_nil_r in H. exact H.
Defined.

End FileDirectivesProps.

(** ** More on the two commands *)

Module MagicsProps.
Import PyStr Splitter FileDirectives FileDirectivesFacts FileDirectivesProps.
Import SplitterProps Magics MagicsFacts MagicsExamples.

(** The connection parameters that [_initialize_connection] stores: each
    argument, or the environment variable when the argument is missing or
    empty. *)
Definition resolve (getenv : string -> option string) (args : Namespace)
  : conn_params :=
  {| cp_account := py_or (arg_account args) (getenv "SNOWFLAKE_ACCOUNT");
     cp_user := py_or (arg_user args) (getenv "SNOWFLAKE_USER");
     cp_role := py_or (arg_role args) (getenv "SNOWFLAKE_ROLE");
     cp_private_key_file :=
       py_or (arg_private_key_path args) (getenv "SNOWFLAKE_PRIVATE_KEY_PATH");
     cp_private_key_file_pwd :=
       py_or (arg_private_key_passphrase args)
             (getenv "SNOWFLAKE_PRIVATE_KEY_PASSPHRASE") |}.

(** The four parameters that must be there. *)
Definition required (p : conn_params) : list (option string) :=
  [cp_account p; cp_user p; cp_role p; cp_private_key_file p].

(** A parameter as it is resolved: the argument when that is a string
    that is not empty, otherwise the environment variable. *)
Definition arg_or_env (getenv : string -> option string) (arg : option string)
    (variable : string) : option string :=
  match arg with
  | Some (String c s) => Some (String c s)
  | _ => getenv variable
  end.

Definition resolved (getenv : string -> option string) (args : Namespace)
  : conn_params :=
  {| cp_account := arg_or_env getenv (arg_account args) "SNOWFLAKE_ACCOUNT";
     cp_user := arg_or_env getenv (arg_user args) "SNOWFLAKE_USER";
     cp_role := arg_or_env getenv (arg_role args) "SNOWFLAKE_ROLE";
     cp_private_key_file :=
       arg_or_env getenv (arg_private_key_path args) "SNOWFLAKE_PRIVATE_KEY_PATH";
     cp_private_key_file_pwd :=
       arg_or_env getenv (arg_private_key_passphrase args)
         "SNOWFLAKE_PRIVATE_KEY_PASSPHRASE" |}.

(** A parameter that is a string and not empty. *)
Definition present (x : option string) : Prop :=
  exists c s, x = Some (String c s).

Definition hello : event := Print "Initializing new Snowflake connection...".
Definition connected : event := Print "Snowflake connection successful.".
Definition not_initialized : event :=
  Print "Error: Snowflake connection not initialized. Please run %snowauth first.".
Definition no_results : event :=
  Print "Query executed successfully, but it did not produce any results to display.".

Section HostProps.

Variable getenv : string -> option string.
Variable fs : filesystem.
Variable connect : conn_params -> exn + connection.
Variable DB : Type.
Variable run : DB -> string -> DB * (exn + cursor).

(** X7.  While the connection object is open, [%snowauth] with complete
    parameters reports success without calling the connector: the old
    connection is kept, whatever the new parameters are. *)
Theorem reauth_keeps_open_connection (args : Namespace)
    (self : SnowflakeSqlMagics) (c : connection) :
  conn self = Some c -> is_closed c = false ->
  all (required (resolve getenv args)) = true ->
  let r := _initialize_connection getenv connect args self in
  snd r = [hello; connected]
  /\ conn (fst r) = Some c
  /\ _initialized (fst r) = true
  /\ params_of (fst r) = resolve getenv args.
Proof.
  intros Hconn Hopen Hall. cbv zeta.
  unfold _initialize_connection, _create_connection. cbn [conn account user role private_key_path].
  unfold required, resolve in Hall. cbn [cp_account cp_user cp_role cp_private_key_file] in Hall.
  rewrite Hall, Hconn, Hopen. cbn [negb fst snd]. by repeat split.
Qed.

Lemma first_snowauth_initialized (args : Namespace) :
  _initialized (fst (snowauth getenv connect args init)) = true
  <-> all (required (resolve getenv args)) = true
      /\ exists c, connect (resolve getenv args) = inr c.
Proof.
  unfold snowauth, _initialize_connection, _create_connection.
  cbn [conn account user role private_key_path init].
  change (all [_; _; _; _]) with (all (required (resolve getenv args))).
  destruct (all (required (resolve getenv args))); cbn [negb fst].
  - change (params_of _) with (resolve getenv args).
    destruct (connect (resolve getenv args)) as [e|c]; cbn [fst _initialized set_initialized].
    + split; [done|]. by intros [_ [c [=]]].
    + split; [|done]. intros _. split; [done|]. by exists c.
  - split; [done|]. by intros [[=] _].
Qed.

Lemma resolve_resolved (args : Namespace) :
  resolve getenv args = resolved getenv args.
Proof. unfold resolve, resolved, arg_or_env. by rewrite !py_or_cases. Qed.

Lemma truthy_present (x : option string) : truthy_opt x = true <-> present x.
Proof.
  destruct x as [[|c s]|]; simpl; split; try done.
  - by intros (c & s & [=]).
  - intros _. by exists c, s.
  - by intros (c & s & [=]).
Qed.

(** X8.  The first [%snowauth] of a session leaves the extension
    initialized exactly when each of the four required parameters, taken
    from its argument when that is a string that is not empty and from its
    environment variable otherwise, is a string that is not empty, and the
    connector accepts the parameters so resolved. *)
Theorem first_snowauth_initialized_iff (args : Namespace) :
  let p := resolved getenv args in
  _initialized (fst (snowauth getenv connect args init)) = true
  <-> (present (cp_account p) /\ present (cp_user p) /\ present (cp_role p)
       /\ present (cp_private_key_file p))
      /\ exists c, connect p = inr c.
Proof.
  cbv zeta. rewrite first_snowauth_initialized, resolve_resolved.
  unfold required, all. cbn [forallb].
  rewrite andb_true_r, !andb_true_iff, !truthy_present. tauto.
Qed.

(** After a failed call the extension is as uninitialized as before. *)
Lemma failed_snowauth_invariant (args : Namespace) (self : SnowflakeSqlMagics) :
  (forall p, exists e, connect p = inl e) ->
  _initialized self = false -> conn self = None ->
  _initialized (fst (snowauth getenv connect args self)) = false
  /\ conn (fst (snowauth getenv connect args self)) = None.
Proof.
  intros Hfail Hi Hc. unfold snowauth, _initialize_connection, _create_connection.
  cbn [conn]. rewrite Hc.
  destruct (negb (all _)); cbn [fst conn _initialized]; [done|].
  destruct (Hfail (params_of (Build_SnowflakeSqlMagics None (_initialized self)
     (py_or (arg_account args) (getenv "SNOWFLAKE_ACCOUNT"))
     (py_or (arg_user args) (getenv "SNOWFLAKE_USER"))
     (py_or (arg_role args) (getenv "SNOWFLAKE_ROLE"))
     (py_or (arg_private_key_path args) (getenv "SNOWFLAKE_PRIVATE_KEY_PATH"))
     (py_or (arg_private_key_passphrase args)
        (getenv "SNOWFLAKE_PRIVATE_KEY_PASSPHRASE"))))) as [e He].
  rewrite He. done.
Qed.

(** X9.  As long as the connector refuses every connection, no sequence of
    [%snowauth] calls on a new extension makes [%%snowsql] do anything but
    report that the connection is not initialized: nothing is sent to the
    warehouse and the session stays as it is. *)
Theorem never_executes_without_connection (calls : list Namespace)
    (line cell : string) (ns : gmap string pyobj) (d : DB) :
  (forall p, exists e, connect p = inl e) ->
  let self := foldl (fun s args => fst (snowauth getenv connect args s)) init calls in
  let st := {| self_ := self; user_ns := ns; db := d |} in
  snowsql fs connect run line cell st = (st, [not_initialized]).
Proof.
  intros Hfail self st.
  assert (_initialized self = false /\ conn self = None) as [Hi _].
  { unfold self. clear st self.
    assert (forall s, _initialized s = false /\ conn s = None ->
              _initialized (foldl (fun s args => fst (snowauth getenv connect args s)) s calls) = false
              /\ conn (foldl (fun s args => fst (snowauth getenv connect args s)) s calls) = None)
      as H.
    { induction calls as [|a calls IH]; intros s [H1 H2]; [done|].
      simpl. apply IH. by apply failed_snowauth_invariant. }
    by apply H. }
  unfold snowsql, st. cbn [self_]. by rewrite Hi.
Qed.

(** X10.  When the connection has to be opened again and the connector
    refuses, [%%snowsql] sends no statement: it reports that one error
    with its trace and leaves the session, with its initialized flag, as it
    is. *)
Theorem snowsql_connection_failure (line cell : string) (st : session DB) (e : exn) :
  _initialized (self_ st) = true ->
  match conn (self_ st) with Some c => is_closed c | None => true end = true ->
  connect (params_of (self_ st)) = inl e ->
  snowsql fs connect run line cell st
  = (st, [Connect (params_of (self_ st));
          Print ("An error occurred: " +:+ exn_str e); PrintExc e]).
Proof.
  intros Hi Hc He. unfold snowsql, _snowflake_sql_executor, _create_connection.
  rewrite Hi, Hc, He. cbn [negb]. by destruct st.
Qed.

(** X11.  [%%snowsql] changes no name of the namespace other than the target
    variable, and without a target variable it changes none, whether the
    block runs, fails or is refused. *)
Theorem snowsql_namespace_frame (line cell : string) (st : session DB) (k : string) :
  k <> strip line \/ strip line = "" ->
  user_ns (fst (snowsql fs connect run line cell st)) !! k = user_ns st !! k.
Proof.
  intros Hk. unfold snowsql.
  destruct (negb (_initialized (self_ st))); [done|].
  destruct (_snowflake_sql_executor _ _ _ _ _) as [[[self' d'] ev] [e|results]];
    [done|].
  unfold bind. destruct (truthy (strip line)) eqn:Hv; [|done].
  destruct Hk as [Hk|Hk]; [|by rewrite Hk in Hv].
  destruct (last (dataframes results)); cbn [fst user_ns]; [|done].
  by rewrite lookup_insert_ne.
Qed.

Lemma executor_silent (self self1 : SnowflakeSqlMagics) (d d1 : DB)
    (q : string) (ev : list event) (r : exn + list result) :
  _snowflake_sql_executor connect run self d q = (self1, d1, ev, r) ->
  filter (fun x => is_display x = true) ev = [].
Proof.
  unfold _snowflake_sql_executor.
  destruct (_create_connection connect self) as [[self' evc] [e|]] eqn:Hc.
  - intros [= <- <- <- <-]. apply (silent_filter is_display); [by intros []|].
    eapply silent_connect, create_connection_events, Hc.
  - destruct (exec_loop run d (statements q) []) as [[d2 ev2] r2] eqn:Hl.
    intros [= <- <- <- <-]. rewrite filter_app.
    rewrite (silent_filter is_display evc); [|by intros []|
      eapply silent_connect, create_connection_events, Hc].
    clear Hc. revert Hl. generalize (@nil result). generalize d.
    generalize (statements q). clear.
    intros stmts. revert ev2 d2 r2.
    induction stmts as [|s stmts IH]; intros ev2 d2 r2 d acc; simpl.
    + by intros [= <- <- <-].
    + destruct (run d s) as [d' [e|cur]]; [by intros [= <- <- <-]|].
      destruct (run_cursor cur s) as [e|new]; [by intros [= <- <- <-]|].
      destruct (exec_loop run d' stmts (acc ++ new)) as [[d3 ev3] r3] eqn:E.
      intros [= <- <- <-]. rewrite filter_cons. case_decide; [done|].
      by eapply IH.
Qed.

Lemma display_render (results : list result) :
  filter (fun x => is_display x = true) (map render_result results)
  = map Display (dataframes results).
Proof.
  induction results as [|[df|m] results IH]; [done| |]; simpl;
    rewrite filter_cons; case_decide; try done; by rewrite IH.
Qed.

(** X12.  When a block runs to its end, every DataFrame among the results is
    displayed once, in the order of execution, and nothing else is
    displayed, with or without a target variable. *)
Theorem snowsql_displays_dataframes (line cell : string) (st : session DB)
    (self1 : SnowflakeSqlMagics) (d1 : DB) (ev : list event)
    (results : list result) :
  _initialized (self_ st) = true ->
  _snowflake_sql_executor connect run (self_ st) (db st)
    (_process_file_directives fs cell) = (self1, d1, ev, inr results) ->
  filter (fun x => is_display x = true) (snd (snowsql fs connect run line cell st))
  = map Display (dataframes results).
Proof.
  intros Hi He. unfold snowsql. rewrite Hi, He. cbn [negb].
  destruct (bind (strip line) (dataframes results) (user_ns st)) as [ns' evb] eqn:Hb.
  cbn [snd]. rewrite !filter_app, (executor_silent _ _ _ _ _ _ _ He).
  assert (filter (fun x => is_display x = true) evb = []) as ->.
  { unfold bind in Hb. destruct (truthy (strip line)); [|by injection Hb as <- <-].
    destruct (1 <? length (dataframes results))%nat,
      (last (dataframes results)); by injection Hb as <- <-. }
  unfold show. destruct results as [|r results]; [done|].
  apply display_render.
Qed.

Lemma run_cursor_one (cur : cursor) (s : string) (new : list result) :
  run_cursor cur s = inr new -> length new <= 1.
Proof.
  unfold run_cursor. destruct (close cur); [done|].
  destruct (execute cur); [done|].
  destruct (message_map (statement_type s)).
  - destruct (fetchall cur); [done|]. intros [= <-]. simpl. lia.
  - destruct (description cur); [|intros [= <-]; simpl; lia].
    destruct (fetch_pandas_all cur) as [df| |e]; [| |done].
    + destruct (negb (df_empty df)); [intros [= <-]; simpl; lia|].
      destruct (startswith "SHOW" _); intros [= <-]; simpl; lia.
    + destruct (fetchall cur); [done|]. intros [= <-]. simpl. lia.
Qed.

Lemma exec_loop_count (stmts : list string) :
  forall d acc d' ev res,
    exec_loop run d stmts acc = (d', ev, inr res) ->
    length res <= length acc + length stmts.
Proof.
  induction stmts as [|s stmts IH]; intros d acc d' ev res; simpl.
  - intros [= <- <- <-]. lia.
  - destruct (run d s) as [d1 [e|cur]]; [done|].
    destruct (run_cursor cur s) as [e|new] eqn:Hc; [done|].
    destruct (exec_loop run d1 stmts (acc ++ new)) as [[d2 ev2] r] eqn:E.
    intros [= <- <- ->]. apply IH in E. apply run_cursor_one in Hc.
    rewrite length_app in E. lia.
Qed.

(** X13.  A block that runs to its end gives at most one result for each of
    its statements, so at most that many DataFrames. *)
Theorem executor_result_count (self self1 : SnowflakeSqlMagics) (d d1 : DB)
    (sql_query : string) (ev : list event) (results : list result) :
  _snowflake_sql_executor connect run self d sql_query = (self1, d1, ev, inr results) ->
  length (dataframes results) <= length results
  /\ length results <= length (statements sql_query).
Proof.
  unfold _snowflake_sql_executor.
  destruct (_create_connection connect self) as [[self' evc] [e|]]; [done|].
  destruct (exec_loop run d (statements sql_query) []) as [[d2 ev2] r2] eqn:Hl.
  intros [= <- <- <- ->]. split.
  - clear. induction results as [|[df|m] results IH]; simpl; lia.
  - apply exec_loop_count in Hl. simpl in Hl. lia.
Qed.

Lemma blank_plain (s : string) : blank s = true -> plain s = true.
Proof.
  unfold plain. rewrite negb_true_iff. induction s as [|c s IH]; [done|].
  unfold blank. cbn [all_chars contains]. intros H.
  apply andb_true_iff in H as [Hc Hs].
  rewrite (IH Hs), orb_false_r, startswith_cons.
  destruct (Ascii.eqb_spec "F" c) as [<-|Hne]; [by vm_compute in Hc|done].
Qed.

(** X14.  A cell of white space and semicolons only sends nothing to the
    warehouse: the connection is looked after, a target variable gets the
    warning that no DataFrame was returned, and the message that nothing
    is to be displayed is printed. *)
Theorem snowsql_blank_cell (line cell : string) (st : session DB)
    (self1 : SnowflakeSqlMagics) (evc : list event) :
  _initialized (self_ st) = true ->
  _create_connection connect (self_ st) = (self1, evc, None) ->
  blank cell = true ->
  snowsql fs connect run line cell st
  = ({| self_ := self1; user_ns := user_ns st; db := db st |},
     evc ++
     (if truthy (strip line)
      then [Print ("Warning: No DataFrame returned to assign to '"
                   +:+ strip line +:+ "'.")]
      else []) ++ [no_results]).
Proof.
  intros Hi Hc Hb. unfold snowsql, _snowflake_sql_executor.
  rewrite Hi, Hc. cbn [negb].
  assert (_process_file_directives fs cell = cell) as ->.
  { unfold _process_file_directives. rewrite <- (str_app_nil_r cell) at 1.
    rewrite sub_plain_tail; [by rewrite str_app_nil_r|by apply blank_plain|done]. }
  rewrite (statements_blank cell Hb). cbn [exec_loop dataframes].
  unfold bind. rewrite (right_id_L [] (++)).
  by destruct (truthy (strip line)).
Qed.

End HostProps.

Lemma reauth_keeps_open_connection_witness :
  snd (_initialize_connection no_env open_connection full_args authenticated)
  = [hello; connected].
Proof.
  destruct (reauth_keeps_open_connection no_env open_connection full_args
              authenticated {| is_closed := false |}) as [H _];
    [reflexivity..|exact H].
Defined.

(** A connector that refuses every connection. *)
Definition refusing : conn_params -> exn + connection :=
  fun _ => inl {| exn_class := "DatabaseError"; exn_str := "JWT token is invalid" |}.

Lemma never_executes_without_connection_witness :
  snd (snowsql demo_fs refusing demo_run "df" "SELECT 1"
         {| self_ := fst (snowauth no_env refusing full_args init);
            user_ns := ∅; db := 0 |})
  = [not_initialized].
Proof.
  exact (f_equal snd
           (never_executes_without_connection no_env demo_fs refusing nat
              demo_run [full_args] "df" "SELECT 1" ∅ 0
              (fun p => ex_intro _ _ eq_refl))).
Defined.

(** The extension after the connection was closed behind its back. *)
Definition dropped : session nat :=
  {| self_ := set_conn (Some {| is_closed := true |}) authenticated;
     user_ns := ∅; db := 0 |}.

Lemma snowsql_connection_failure_witness :
  fst (snowsql demo_fs refusing demo_run "df" "SELECT 1" dropped) = dropped.
Proof.
  rewrite (snowsql_connection_failure demo_fs refusing nat demo_run
             "df" "SELECT 1" dropped
             {| exn_class := "DatabaseError"; exn_str := "JWT token is invalid" |});
    reflexivity.
Defined.

Lemma snowsql_namespace_frame_witness :
  user_ns (fst (snowsql demo_fs open_connection demo_run "df" "SELECT 1"
                  demo_session)) !! "other" = None.
Proof.
  rewrite (snowsql_namespace_frame demo_fs open_connection nat demo_run
             "df" "SELECT 1" demo_session "other"); [reflexivity|].
  left. discriminate.
Defined.

Lemma snowsql_displays_dataframes_witness :
  filter (fun x => is_display x = true)
    (snd (snowsql demo_fs open_connection demo_run "" "SELECT 1; SELECT 2"
            demo_session))
  = [Display one_row; Display one_row].
Proof.
  rewrite (snowsql_displays_dataframes demo_fs open_connection nat demo_run
             "" "SELECT 1; SELECT 2" demo_session authenticated 2
             [Execute "SELECT 1"; Execute "SELECT 2"]
             [Frame one_row; Frame one_row]); reflexivity.
Defined.

Lemma executor_result_count_witness :
  length [Message "Number of rows inserted: 1"; Frame one_row]
  <= length (statements "INSERT INTO t VALUES (1); SELECT 1").
Proof.
  apply (executor_result_count open_connection nat demo_run authenticated
           authenticated 0 2 "INSERT INTO t VALUES (1); SELECT 1"
           [Execute "INSERT INTO t VALUES (1)"; Execute "SELECT 1"]).
  reflexivity.
Defined.

Lemma snowsql_blank_cell_witness :
  snd (snowsql demo_fs open_connection demo_run "df" " ; " demo_session)
  = [Print "Warning: No DataFrame returned to assign to 'df'."; no_results].
Proof.
  rewrite (snowsql_blank_cell demo_fs open_connection nat demo_run
             "df" " ; " demo_session authenticated []); reflexivity.
Defined.

End MagicsProps.

(** ** More on the converter *)

Module ConverterProps.
Import PyStr Converter ConverterFacts ConverterExamples.

(** The loop body does not raise on this cell: it is a dictionary and, when
    it is a code cell, its metadata is missing or a dictionary. *)
Definition loop_ok (cell : JSON) : bool :=
  match cell with
  | JDict c =>
      if is_str "code" (dict_get "cell_type" c) then
        match dict_get "metadata" c with
        | None | Some (JDict _) => true
        | Some _ => false
        end
      else true
  | _ => false
  end.

(** The conversion does not raise on this document. *)
Definition doc_ok (notebook : JSON) : bool :=
  match notebook with
  | JDict nb =>
      match dict_get "cells" nb with
      | None => true
      | Some (JList cells) => forallb loop_ok cells
      | Some _ => false
      end
  | _ => false
  end.

Definition is_list (v : JSON) : bool :=
  match v with JList _ => true | _ => false end.

Lemma dict_set_absent (k : string) (v : JSON) (d : list (string * JSON)) :
  dict_get k d = None -> dict_set k v d = d ++ [(k, v)].
Proof.
  induction d as [|[k' v'] d IH]; simpl; [done|].
  destruct (String.eqb k k'); [done|]. intros H. by rewrite IH.
Qed.

Lemma convert_cell_ok (cell : JSON) :
  if loop_ok cell then exists cell', convert_cell cell = inr cell'
  else convert_cell cell = inl AttributeError.
Proof.
  unfold loop_ok, convert_cell. destruct cell as [| | | | | |c]; try done.
  destruct (is_str "code" (dict_get "cell_type" c)); [|by eexists].
  destruct (dict_get "metadata" c) as [[| | | | | |m]|]; try done; [|by eexists].
  destruct (is_str "sql" (dict_get "language" m)); by eexists.
Qed.

Lemma convert_cells_ok (cells : list JSON) :
  if forallb loop_ok cells then exists cells', convert_cells cells = inr cells'
  else convert_cells cells = inl AttributeError.
Proof.
  induction cells as [|cell cells IH]; simpl; [by eexists|].
  pose proof (convert_cell_ok cell) as Hc.
  destruct (loop_ok cell); simpl.
  - destruct Hc as [cell' ->]. destruct (forallb loop_ok cells).
    + destruct IH as [cells' ->]. by eexists.
    + by rewrite IH.
  - by rewrite Hc.
Qed.

Lemma new_cells_loop_ok (uuid4 : nat -> string) :
  forallb loop_ok (new_cells_at_beginning uuid4) = true.
Proof. reflexivity. Qed.

(** X15.  The conversion returns a document exactly for a dictionary whose
    cells, if it has any, are a list of dictionaries in which every code
    cell has no metadata or a dictionary as metadata.  Otherwise it
    raises: TypeError when the cells are no list, AttributeError in the
    other cases. *)
Theorem convert_document_returns_iff (uuid4 : nat -> string) (notebook : JSON) :
  (doc_ok notebook = true <->
   exists notebook', convert_document uuid4 notebook = inr notebook')
  /\ (doc_ok notebook = false ->
      convert_document uuid4 notebook
      = inl (match notebook with
             | JDict nb =>
                 match dict_get "cells" nb with
                 | Some v => if is_list v then AttributeError else TypeError
                 | None => AttributeError
                 end
             | _ => AttributeError
             end)).
Proof.
  assert (doc_ok notebook = true /\
            (exists notebook', convert_document uuid4 notebook = inr notebook')
          \/ doc_ok notebook = false /\
             convert_document uuid4 notebook
             = inl (match notebook with
                    | JDict nb =>
                        match dict_get "cells" nb with
                        | Some v => if is_list v then AttributeError else TypeError
                        | None => AttributeError
                        end
                    | _ => AttributeError
                    end)) as H.
  { unfold doc_ok, convert_document.
    destruct notebook as [| | | | | |nb]; try (by right).
    destruct (dict_get "cells" nb) as [[| | | | |cells|]|] eqn:Hcells;
      try (by right).
    - rewrite dict_get_set_eq.
      pose proof (convert_cells_ok (new_cells_at_beginning uuid4 ++ cells)) as Hc.
      rewrite forallb_app, new_cells_loop_ok, andb_true_l in Hc.
      destruct (forallb loop_ok cells).
      + left. split; [done|]. destruct Hc as [cells' ->]. by eexists.
      + right. split; [done|]. by rewrite Hc.
    - left. split; [done|]. rewrite dict_get_set_eq.
      rewrite (right_id_L [] (++)), convert_new_cells. by eexists. }
  destruct H as [[Hok [nb' Hnb]]|[Hbad Herr]].
  - split; [|congruence]. split; [|done]. intros _. by exists nb'.
  - split; [|done]. rewrite Hbad, Herr. split; [done|]. by intros [? [=]].
Qed.

(** X16.  A document without the key cells gets it as its last key, holding
    the six added cells; the other keys stay as they are. *)
Theorem convert_document_without_cells (uuid4 : nat -> string)
    (nb : list (string * JSON)) :
  dict_get "cells" nb = None ->
  convert_document uuid4 (JDict nb)
  = inr (JDict (nb ++ [("cells", JList (new_cells_at_beginning uuid4))])).
Proof.
  intros H. unfold convert_document. rewrite H, dict_get_set_eq.
  rewrite (right_id_L [] (++)), convert_new_cells, !dict_set_set.
  by rewrite dict_set_absent.
Qed.

(** X17.  What the loop body has returned it returns unchanged: converting a
    converted cell again adds no second marker. *)
Theorem convert_cell_idempotent (cell cell' : JSON) :
  convert_cell cell = inr cell' -> convert_cell cell' = inr cell'.
Proof.
  intros H. destruct (is_sql_code cell) eqn:Hsql.
  - assert (wf_cell cell = true) as Hwf.
    { unfold is_sql_code, language, field, wf_cell in *.
      destruct cell as [| | | | | |c]; try done.
      destruct (dict_get "metadata" c) as [[]|]; try done;
        by rewrite andb_false_r in Hsql. }
    rewrite convert_cell_wf in H by done. injection H as <-.
    apply convert_cell_python. by apply converted_language.
  - pose proof (converted_other cell Hsql) as Hc. unfold converted in Hc.
    rewrite H in Hc. by subst.
Qed.

(** X18.  A code cell tagged sql that has no source gets the marker alone as
    its source, as a new last field; one whose source is neither a string
    nor a list is tagged python and keeps its source, without a marker. *)
Theorem sql_cell_odd_source (c metadata : list (string * JSON)) :
  is_str "code" (dict_get "cell_type" c) = true ->
  dict_get "metadata" c = Some (JDict metadata) ->
  is_str "sql" (dict_get "language" metadata) = true ->
  let c' := dict_set "metadata"
              (JDict (dict_set "language" (JStr "python") metadata)) c in
  (dict_get "source" c = None ->
     convert_cell (JDict c) = inr (JDict (c' ++ [("source", JList [JStr marker])])))
  /\ (forall v, dict_get "source" c = Some v ->
        match v with JStr _ | JList _ => False | _ => True end ->
        convert_cell (JDict c) = inr (JDict c')
        /\ field "source" (JDict c') = Some v
        /\ language (JDict c') = Some (JStr "python")).
Proof.
  intros Hcode Hm Hsql c'. unfold convert_cell. rewrite Hcode, Hm, Hsql.
  fold c'. assert (dict_get "source" c' = dict_get "source" c) as Hs
    by (by apply dict_get_set_ne).
  rewrite Hs. split.
  - intros Hnone. rewrite Hnone. rewrite dict_set_absent; [done|congruence].
  - intros v Hv Hodd. rewrite Hv.
    assert (dict_set "source" v c' = c') as Hid by (apply dict_set_id; congruence).
    split; [by destruct v; try done; rewrite Hid|].
    split; [simpl; congruence|].
    unfold language, c'. rewrite dict_get_set_eq. apply dict_get_set_eq.
Qed.

(** X19.  Whatever the files do, the only file a run touches is the
    output file, and it is not opened when loading or converting failed.
    When loading, converting and writing all succeed the output file holds
    the whole converted document and the line of success is printed; and
    the file holds a whole document only then, with no exception leaving
    the function.  When the writing fails after the file was opened, the
    file is left emptied or partly written, with the error line printed
    for an IOError.  No run prints more than one line, and a run that lets
    an exception out has printed nothing. *)
Theorem convert_notebook_outcomes (w : world) (input_filename output_filename : string) :
  let r := convert_notebook w input_filename output_filename in
  (forall notebook doc,
     load w input_filename = Loaded notebook ->
     convert_document (uuid4 w) notebook = inr doc ->
     dump w output_filename doc = Dumped ->
     written r = Complete output_filename doc /\ raised r = None
     /\ printed r = ["Successfully converted " +:+ input_filename
                     +:+ " to " +:+ output_filename])
  /\ (forall e, raised r = Some e -> printed r = [])
  /\ (forall p doc, written r = Complete p doc ->
        p = output_filename /\ raised r = None
        /\ printed r = ["Successfully converted " +:+ input_filename
                        +:+ " to " +:+ output_filename]
        /\ exists notebook,
             load w input_filename = Loaded notebook /\
             convert_document (uuid4 w) notebook = inr doc /\
             dump w output_filename doc = Dumped)
  /\ (forall p text, written r = Partial p text ->
        p = output_filename
        /\ exists notebook doc,
             load w input_filename = Loaded notebook /\
             convert_document (uuid4 w) notebook = inr doc /\
             ((exists e, dump w output_filename doc = WriteIOError e text /\
                         printed r = ["Error writing to output file "
                                      +:+ output_filename +:+ ": " +:+ e]
                         /\ raised r = None)
              \/ (exists e, dump w output_filename doc = DumpRaises e (Some text)
                            /\ printed r = [] /\ raised r = Some e)))
  /\ ((forall notebook, load w input_filename <> Loaded notebook) ->
      written r = NotOpened)
  /\ (forall notebook e,
        load w input_filename = Loaded notebook ->
        convert_document (uuid4 w) notebook = inl e -> written r = NotOpened)
  /\ length (printed r) <= 1.
Proof.
  cbv zeta. split.
  { intros notebook doc Hl Hc Hd. unfold convert_notebook.
    by rewrite Hl, Hc, Hd. }
  unfold convert_notebook.
  destruct (load w input_filename) as [| |e0|notebook]; simpl.
  1-3: split; [done|split; [done|split; [done|split; [done|split; [done|lia]]]]].
  destruct (convert_document (uuid4 w) notebook) as [e0|doc] eqn:Hd; simpl.
  { repeat split; try done; lia. }
  assert (forall (r : output_file) notebook0 (e : error),
            Loaded notebook = Loaded notebook0 ->
            convert_document (uuid4 w) notebook0 = inl e -> r = NotOpened) as He.
  { intros r nb0 e [= <-]. congruence. }
  destruct (dump w output_filename doc) as [|msg|msg text|e1 [text|]] eqn:Hw; simpl.
  - split; [done|]. split; [|split; [done|split; [|split; [apply He|lia]]]].
    + intros p doc' [= <- <-]. repeat split. by exists notebook.
    + intros H. by destruct (H notebook).
  - split; [done|]. split; [done|]. split; [done|]. split; [done|].
    split; [apply He|lia].
  - split; [done|]. split; [done|]. split; [|split; [|split; [apply He|lia]]].
    + intros p text' [= <- <-]. split; [done|]. exists notebook, doc.
      repeat split; try done. left. by exists msg.
    + intros H. by destruct (H notebook).
  - split; [done|]. split; [done|]. split; [|split; [|split; [apply He|lia]]].
    + intros p text' [= <- <-]. split; [done|]. exists notebook, doc.
      repeat split; try done. right. by exists e1.
    + intros H. by destruct (H notebook).
  - split; [done|]. split; [done|]. split; [done|]. split; [done|].
    split; [apply He|lia].
Qed.

Lemma convert_document_without_cells_witness :
  convert_document demo_ids (JDict [("nbformat", JInt 4)])
  = inr (JDict [("nbformat", JInt 4);
                ("cells", JList (new_cells_at_beginning demo_ids))]).
Proof. apply (convert_document_without_cells demo_ids [("nbformat", JInt 4)]). reflexivity. Defined.

Lemma convert_cell_idempotent_witness :
  exists cell',
    convert_cell (JDict [("cell_type", JStr "code");
                         ("metadata", JDict [("language", JStr "sql")]);
                         ("source", JStr "select 1")]) = inr cell'
    /\ convert_cell cell' = inr cell'.
Proof.
  eexists. split; [reflexivity|].
  apply (convert_cell_idempotent
           (JDict [("cell_type", JStr "code");
                   ("metadata", JDict [("language", JStr "sql")]);
                   ("source", JStr "select 1")])).
  reflexivity.
Defined.

Lemma sql_cell_odd_source_witness :
  convert_cell (JDict [("cell_type", JStr "code");
                       ("metadata", JDict [("language", JStr "sql")])])
  = inr (JDict [("cell_type", JStr "code");
                ("metadata", JDict [("language", JStr "python")]);
                ("source", JList [JStr marker])]).
Proof.
  destruct (sql_cell_odd_source
              [("cell_type", JStr "code");
               ("metadata", JDict [("language", JStr "sql")])]
              [("language", JStr "sql")]) as [H _]; [reflexivity..|].
  exact (H eq_refl).
Defined.

End ConverterProps.

(** ** The file directives in every text *)

Module FileDirectivesClaim.
Import PyStr Splitter FileDirectives FileDirectivesFacts FileDirectivesProps.
Import Magics MagicsFacts MagicsExamples.

#[local] Arguments Ascii.eqb : simpl never.

Definition is_execute (ev : event) : bool :=
  match ev with Execute _ => true | _ => false end.

Lemma drop_prefix_some (p s r : string) : drop_prefix p s = Some r -> s = p +:+ r.
Proof.
  revert s. induction p as [|a p IH]; intros [|b s]; simpl; try done.
  - by intros [= <-].
  - by intros [= <-].
  - destruct (Ascii.eqb_spec a b) as [->|]; [|done].
    intros H. rewrite str_app_cons. f_equal. by apply IH.
Qed.

(** What the lazy group has matched: the shortest text without a line
    feed that the quote and a parenthesis follow. *)
Lemma lazy_path_some (q : ascii) (s : string) :
  is_quote q = true ->
  forall g n, lazy_path q s = Some (g, n) ->
    exists rest, s = g +:+ String q (String ")" rest)
                 /\ contains (String newline "") g = false
                 /\ contains (String q ")") g = false.
Proof.
  intros Hq. induction s as [|c s IH]; intros g n; [done|]. cbn [lazy_path].
  destruct (Ascii.eqb c q && startswith ")" s) eqn:Hend.
  - intros [= <- <-]. apply andb_true_iff in Hend as [Hc Hs].
    apply Ascii.eqb_eq in Hc as ->. destruct s as [|d s]; [done|].
    rewrite startswith_cons in Hs. apply andb_true_iff in Hs as [Hd _].
    apply Ascii.eqb_eq in Hd as <-. by exists s.
  - destruct (Ascii.eqb c newline) eqn:Hnl; [done|].
    destruct (lazy_path q s) as [[g' n']|] eqn:Hl; [|done].
    intros [= <- <-]. destruct (IH _ _ eq_refl) as (rest & -> & Hn & Hc).
    exists rest. split; [by rewrite str_app_cons|].
    cbn [contains]. rewrite Hn, Hc, !orb_false_r, !startswith_cons.
    rewrite (Ascii.eqb_sym newline c), Hnl. split; [done|].
    rewrite (Ascii.eqb_sym q c). destruct (Ascii.eqb c q); [|done].
    rewrite andb_true_l in *. destruct g' as [|d g']; [done|].
    by rewrite str_app_cons, startswith_cons in Hend.
Qed.

(** The pattern matches only at a directive. *)
Lemma pattern_some (s g : string) (n : nat) :
  pattern s = Some (g, n) ->
  exists q rest, path_ok q g = true /\ s = directive q g +:+ rest.
Proof.
  unfold pattern. destruct (drop_prefix "FILE(" s) as [[|q s1]|] eqn:Hd; try done.
  destruct (is_quote q) eqn:Hq; [|done].
  destruct (lazy_path q s1) as [[g' n']|] eqn:Hl; [|done].
  intros [= <- <-]. destruct (lazy_path_some q s1 Hq _ _ Hl) as (rest & -> & Hn & Hc).
  exists q, rest. split.
  - unfold path_ok. by rewrite Hq, Hn, Hc.
  - apply drop_prefix_some in Hd as ->. unfold directive.
    by rewrite <- !str_app_assoc, !str_app_cons, !str_app_nil_l,
            <- str_app_assoc, !str_app_cons, str_app_nil_l.
Qed.

Section Loop.

Variable DB : Type.
Variable run : DB -> string -> DB * (exn + cursor).

(** The statements sent by the loop are the first ones of the batch, and
    all of them when the loop ends without an exception. *)
Lemma exec_loop_prefix (stmts : list string) :
  forall d acc d' ev r,
    exec_loop run d stmts acc = (d', ev, r) ->
    exists n, ev = map Execute (take n stmts)
              /\ (forall res, r = inr res -> n = length stmts).
Proof.
  induction stmts as [|s stmts IH]; intros d acc d' ev r; simpl.
  - intros [= <- <- <-]. by exists 0.
  - destruct (run d s) as [d1 [e|cur]].
    { intros [= <- <- <-]. by exists 0. }
    destruct (run_cursor cur s) as [e|new].
    { intros [= <- <- <-]. by exists 1. }
    destruct (exec_loop run d1 stmts (acc ++ new)) as [[d2 ev2] r2] eqn:E.
    intros [= <- <- <-]. destruct (IH _ _ _ _ _ E) as (n & -> & Hn).
    exists (S n). split; [done|]. intros res Hr. by rewrite (Hn res).
Qed.

End Loop.

Lemma execute_connects (ev : list event) :
  Forall (fun x => is_connect x = true) ev ->
  filter (fun x => is_execute x = true) ev = [].
Proof.
  induction 1 as [|x l Hx _ IH]; [done|]. rewrite filter_cons, IH.
  case_decide; [by destruct x|done].
Qed.

Lemma execute_executes (stmts : list string) :
  filter (fun x => is_execute x = true) (map Execute stmts) = map Execute stmts.
Proof.
  induction stmts as [|s l IH]; [done|]. simpl. rewrite filter_cons, IH.
  by case_decide.
Qed.

Lemma execute_rendered (results : list result) :
  filter (fun x => is_execute x = true) (map render_result results) = [].
Proof.
  induction results as [|[df|m] l IH]; [done| |]; simpl;
    rewrite filter_cons, IH; by case_decide.
Qed.

Lemma execute_error (s : string) (e : exn) :
  filter (fun x => is_execute x = true) [Print s; PrintExc e] = [].
Proof. reflexivity. Qed.

Lemma print_exc_error (s : string) (e : exn) :
  filter (fun x => is_print_exc x = true) [Print s; PrintExc e] = [PrintExc e].
Proof. reflexivity. Qed.

(** C2 as the specification words it does not hold: a directive whose path
    runs over a line feed is not replaced, although the stripped path names
    a file that is there. *)
Lemma directive_over_line_feed_kept :
  let fs := fun path =>
    if String.eqb path "a.json" then ReadOk "{}" else FileNotFoundError in
  let path := String newline (" a.json" +:+ String newline "") in
  let text := "SELECT FILE('" +:+ path +:+ "')" in
  strip path = "a.json"
  /\ _process_file_directives fs text = text
  /\ _process_file_directives fs text <> "SELECT PARSE_JSON($${}$$)".
Proof. vm_compute. split; [|split]; done. Qed.

(** C2, as amended.  The transform reads the text once from the left.
    Where a directive begins, FILE( with a quote, a path without a line
    feed that ends at the first such quote that a parenthesis follows, it
    writes the replacement and goes on behind the directive; every other
    character is copied.  The replacement is PARSE_JSON around the whole
    content of the file named by the stripped path between dollar quotes,
    a comment with FILE NOT FOUND and that path when the file is missing,
    and a comment with the error text for another read error.  [snowsql]
    splits the transformed text, never the cell itself: the statements it
    sends are the first ones of the transformed text, and all of them when
    nothing raises. *)
Theorem file_directives_every_text (fs : filesystem) :
  _process_file_directives fs "" = ""
  /\ (forall q path rest, path_ok q path = true ->
        _process_file_directives fs (directive q path +:+ rest)
        = replace_directive fs path +:+ _process_file_directives fs rest)
  /\ (forall c s,
        (forall q path rest, path_ok q path = true ->
                             String c s <> directive q path +:+ rest) ->
        _process_file_directives fs (String c s)
        = String c (_process_file_directives fs s))
  /\ (forall path,
        replace_directive fs path
        = match fs (strip path) with
          | ReadOk content => "PARSE_JSON($$" +:+ content +:+ "$$)"
          | FileNotFoundError => "/* FILE NOT FOUND: " +:+ strip path +:+ " */"
          | ReadError e =>
              "/* ERROR READING FILE " +:+ strip path +:+ ": " +:+ e +:+ " */"
          end)
  /\ (forall content, fs "a.json" = ReadOk content ->
        _process_file_directives fs "FILE('a.json')"
        = "PARSE_JSON($$" +:+ content +:+ "$$)")
  /\ (forall connect DB (run : DB -> string -> DB * (exn + cursor))
             line cell (st : session DB),
        _initialized (self_ st) = true ->
        let events := snd (snowsql fs connect run line cell st) in
        let batch := statements (_process_file_directives fs cell) in
        (exists n, filter (fun x => is_execute x = true) events
                   = map Execute (take n batch))
        /\ (filter (fun x => is_print_exc x = true) events = [] ->
            filter (fun x => is_execute x = true) events = map Execute batch)).
Proof.
  split; [done|]. split; [intros; by apply sub_directive|]. split.
  { intros c s Hno. apply sub_no_match.
    destruct (pattern (String c s)) as [[g n]|] eqn:Hp; [|done].
    destruct (pattern_some _ _ _ Hp) as (q & rest & Hok & E).
    by destruct (Hno q g rest Hok). }
  split; [done|]. split.
  { intros content H.
    change "FILE('a.json')" with (directive "'" "a.json" +:+ "").
    unfold _process_file_directives. rewrite sub_directive by done.
    unfold replace_directive. change (strip "a.json") with "a.json".
    rewrite H. cbn [sub]. by rewrite str_app_nil_r. }
  intros connect DB run line cell st Hi. cbv zeta.
  unfold snowsql, _snowflake_sql_executor. rewrite Hi. cbn [negb].
  destruct (_create_connection connect (self_ st)) as [[self' evc] [e|]] eqn:Hc.
  - cbn [snd]. rewrite !filter_app.
    rewrite (execute_connects evc) by (eapply create_connection_events, Hc).
    rewrite execute_error.
    split; [by exists 0|]. intros H. apply app_eq_nil in H as [_ H].
    by rewrite print_exc_error in H.
  - destruct (exec_loop run (db st) _ []) as [[d' ev'] r] eqn:Hl.
    destruct (exec_loop_prefix DB run _ _ _ _ _ _ Hl) as (n & -> & Hn).
    pose proof (execute_connects evc (create_connection_events _ _ _ _ _ Hc)) as Hevc.
    destruct r as [e|results].
    + cbn [snd]. rewrite !filter_app, Hevc, execute_executes, execute_error.
      split; [exists n; by rewrite (right_id_L [] (++))|].
      intros H. repeat (apply app_eq_nil in H as [_ H]).
      by rewrite print_exc_error in H.
    + destruct (bind _ _ _) as [ns' evb] eqn:Hb. cbn [snd].
      rewrite !filter_app, Hevc, execute_executes.
      assert (filter (fun x => is_execute x = true) evb = []) as ->.
      { unfold bind in Hb. destruct (truthy (strip line)); [|by injection Hb as <- <-].
        destruct (1 <? length (dataframes results))%nat,
          (last (dataframes results)); by injection Hb as <- <-. }
      assert (filter (fun x => is_execute x = true) (show results) = []) as ->.
      { unfold show. destruct results; [done|]. apply execute_rendered. }
      rewrite (Hn results eq_refl), firstn_all, !(right_id_L [] (++)).
      split; [|done]. exists (length (statements (_process_file_directives fs cell))).
      by rewrite firstn_all.
Qed.

(** A block whose first statement holds a directive: the statement goes
    out with the content of the file in it; and a directive behind a call
    whose name ends in FILE is replaced as well. *)
Lemma file_directives_every_text_witness :
  let cell := "INSERT INTO t SELECT FILE('a.json'); SELECT 1" in
  let events := snd (snowsql demo_fs open_connection demo_run "" cell demo_session) in
  filter (fun x => is_execute x = true) events
  = [Execute demo_insert; Execute "SELECT 1"]
  /\ _process_file_directives demo_fs "SELECT PROFILE(x), FILE('a.json')"
     = "SELECT PROFILE(x), PARSE_JSON($$" +:+ k1_json +:+ "$$)".
Proof.
  destruct (file_directives_every_text demo_fs) as (_ & _ & _ & _ & _ & H).
  destruct (H open_connection nat demo_run ""
              "INSERT INTO t SELECT FILE('a.json'); SELECT 1" demo_session)
    as [_ Hall]; [reflexivity|].
  cbv zeta. split.
  - rewrite Hall; [|vm_compute; reflexivity]. vm_compute. reflexivity.
  - vm_compute. reflexivity.
Defined.

End FileDirectivesClaim.
